(** * install.py: installer of a WASI SDK release

    A shallow embedding of [install.py] and the properties of its version
    resolver, URL builder, archive extraction and CI export.

    Python [str] values are modelled as [string]; the string methods the
    script calls ([rstrip], [replace], [lower], [split], [join], [in]) are
    defined in [Module Str].  Effects (the process environment, the files the
    script appends to, exceptions) are threaded through the monad [M]. *)

From stdpp Require Import gmap strings list.
From Stdlib Require Import Ascii String NArith.

Local Open Scope string_scope.

(** ** Python string methods *)

Module Str.

(** [c in chars], for a character [c]. *)
Fixpoint mem (c : ascii) (chars : string) : bool :=
  match chars with
  | "" => false
  | String d chars' => Ascii.eqb c d || mem c chars'
  end.

(** [s.startswith(pre)]. *)
Fixpoint startswith (pre s : string) : bool :=
  match pre, s with
  | "", _ => true
  | String _ _, "" => false
  | String a pre', String b s' => Ascii.eqb a b && startswith pre' s'
  end.

(** [s[n:]]. *)
Fixpoint drop (n : nat) (s : string) : string :=
  match n, s with
  | O, _ => s
  | S _, "" => ""
  | S n', String _ s' => drop n' s'
  end.

(** [sub in s]: [sub] occurs in [s] as a substring. *)
Fixpoint contains (sub s : string) : bool :=
  startswith sub s ||
  match s with
  | "" => false
  | String _ s' => contains sub s'
  end.

(** [s.rstrip(chars)]: drops the longest suffix of [s] made of characters of
    [chars]; [chars] is a set of characters, not a suffix. *)
Fixpoint rstrip (chars s : string) : string :=
  match s with
  | "" => ""
  | String c s' =>
      match rstrip chars s' with
      | "" => if mem c chars then "" else String c ""
      | r => String c r
      end
  end.

(** The scan of [s.replace(old, new)] for a non-empty [old]: left to right,
    each occurrence found is replaced and the scan resumes after it; [skip]
    counts the characters of the current occurrence still to pass over. *)
Fixpoint replace_from (old new : string) (skip : nat) (s : string) : string :=
  match s with
  | "" => ""
  | String c s' =>
      match skip with
      | S k => replace_from old new k s'
      | O =>
          if startswith old s
          then new +:+ replace_from old new (String.length old - 1) s'
          else String c (replace_from old new 0 s')
      end
  end.

(** [s.replace('', new)]: [new] before every character and at the end. *)
Fixpoint intersperse (new s : string) : string :=
  match s with
  | "" => new
  | String c s' => new +:+ String c (intersperse new s')
  end.

(** [s.replace(old, new)]. *)
Definition replace (old new s : string) : string :=
  match old with
  | "" => intersperse new s
  | String _ _ => replace_from old new 0 s
  end.

(** [c.lower()] on an ASCII character; the strings the script lowers are
    the platform's names, which are ASCII. *)
Definition lower_ascii (c : ascii) : ascii :=
  let n := N_of_ascii c in
  if ((65 <=? n) && (n <=? 90))%N then ascii_of_N (n + 32) else c.

(** [s.isascii()]: every character of [s] is below 128. [lower] is Python's
    [str.lower] on such strings. *)
Fixpoint is_ascii (s : string) : bool :=
  match s with
  | "" => true
  | String c s' => (N_of_ascii c <? 128)%N && is_ascii s'
  end.

(** [s.lower()], for a string of ASCII characters. *)
Fixpoint lower (s : string) : string :=
  match s with
  | "" => ""
  | String c s' => String (lower_ascii c) (lower s')
  end.

(** [s.split(sep)] for a one-character separator: never an empty list. *)
Fixpoint split (sep : ascii) (s : string) : list string :=
  match s with
  | "" => [""]
  | String c s' =>
      if Ascii.eqb c sep then "" :: split sep s'
      else match split sep s' with
           | [] => [String c ""]
           | p :: ps => String c p :: ps
           end
  end.

(** [sep.join(parts)]. *)
Fixpoint join (sep : string) (parts : list string) : string :=
  match parts with
  | [] => ""
  | [p] => p
  | p :: ps => p +:+ sep +:+ join sep ps
  end.

(** [s.endswith(suf)]. *)
Fixpoint endswith (suf s : string) : bool :=
  String.eqb s suf ||
  match s with
  | "" => false
  | String _ s' => endswith suf s'
  end.

(** Every character of [s] is one of [chars]. *)
Fixpoint all_in (chars s : string) : bool :=
  match s with
  | "" => true
  | String c s' => mem c chars && all_in chars s'
  end.

(** [''.join(chunks)]. *)
Definition concat (chunks : list string) : string :=
  fold_right String.append "" chunks.

(** What the spec calls removing a prefix (Python's [removeprefix]). *)
Definition removeprefix (pre s : string) : string :=
  if startswith pre s then drop (String.length pre) s else s.

(** What the spec calls removing a suffix (Python's [removesuffix]). *)
Fixpoint removesuffix (suf s : string) : string :=
  if String.eqb s suf then ""
  else match s with
       | "" => ""
       | String c s' => String c (removesuffix suf s')
       end.

End Str.

(** ** Exceptions, the world and the monad *)

Inductive exn : Type :=
  | NetworkError
  | ReadError
  | OSError (what : string)
  | AssertionError (msg : string)
  | KeyError (key : string).

Inductive result (A : Type) : Type :=
  | Ok (a : A)
  | Raise (e : exn).
Arguments Ok {A} a.
Arguments Raise {A} e.

(** A [tarfile.TarInfo]: the entry's name and what it holds. *)
Record TarInfo : Type := mkTarInfo {
  name : string;
  data : string
}.

(** [member.name = new_name]. *)
Definition set_name (member : TarInfo) (new_name : string) : TarInfo :=
  mkTarInfo new_name (data member).

(** What the script does to the file system, in order: a call of
    [tar.extract(member, path=dir)], recorded when it is made, whether it
    then returns or raises; or an [f.write(text)] on a file opened for
    appending. *)
Inductive event : Type :=
  | EvExtract (dir : string) (member : TarInfo)
  | EvWrite (path text : string).

(** The part of the machine the script reads and writes: [os.environ], the
    files by path, and the record of what it did. *)
Record World : Type := mkWorld {
  environ : gmap string string;
  files : gmap string string;
  trace : list event
}.

(** The host: the operating system, the network and the Python library
    functions whose code is not the script's.  A call on the file system
    gives the files it leaves and whether it returned or raised: it may have
    changed the files before it raises. *)
Class Platform : Type := {
  sep : string;                                   (* os.path.sep *)
  machine : string;                               (* platform.machine() *)
  system : string;                                (* platform.system() *)
  abspath : string -> string;                     (* os.path.abspath *)
  dirname : string -> string;                     (* os.path.dirname *)
  (* lines 36 to 38: the GET of the URL with the given Authorization header
     if any, the reading and decoding of the answer, json.loads and the
     member 'tag_name' of what it gives; or what one of these raises *)
  urlopen_tag_name : string -> option string -> result string;
  (* tempfile.NamedTemporaryFile(delete=False): the name of the file it has
     created *)
  named_temporary_file : gmap string string -> result string;
  (* request.urlretrieve(url, name): whether it returned, and what the file
     holds when it has returned or raised *)
  urlretrieve : string -> result unit * string;
  (* os.makedirs(dir, exist_ok=True) *)
  makedirs :
    string -> gmap string string -> result unit * gmap string string;
  (* tarfile.open(name, 'r:gz') and tar.getmembers() *)
  tar_getmembers : gmap string string -> string -> result (list TarInfo);
  (* tar.extract(member, path=dir) *)
  tar_extract :
    TarInfo -> string -> gmap string string -> result unit * gmap string string;
  isfile : gmap string string -> string -> bool;  (* os.path.isfile *)
  isdir : gmap string string -> string -> bool;   (* os.path.isdir *)
  (* what open(path, 'a') raises, when it raises *)
  open_error : gmap string string -> string -> option exn
}.

(** A computation returns a value or raises, and in both cases leaves a
    world: what was written before an exception stays written. *)
Definition M (A : Type) : Type := World -> result A * World.

Definition ret {A} (a : A) : M A := fun w => (Ok a, w).
Definition raise {A} (e : exn) : M A := fun w => (Raise e, w).
Definition bind {A B} (m : M A) (k : A -> M B) : M B :=
  fun w => match m w with
           | (Ok a, w') => k a w'
           | (Raise e, w') => (Raise e, w')
           end.

#[global] Instance M_ret : MRet M := @ret.
#[global] Instance M_bind : MBind M := fun A B k m => bind m k.

(** A library call that returns or raises without touching the world. *)
Definition lift {A} (r : result A) : M A := fun w => (r, w).

(** A change of the files that cannot fail. *)
Definition on_files (f : gmap string string -> gmap string string) : M unit :=
  fun w => (Ok tt, mkWorld (environ w) (f (files w)) (trace w)).

(** A library call on the file system. *)
Definition host_call
    (f : gmap string string -> result unit * gmap string string) : M unit :=
  fun w => (fst (f (files w)), mkWorld (environ w) (snd (f (files w))) (trace w)).

Definition get_files : M (gmap string string) := fun w => (Ok (files w), w).

Definition log (e : event) : M unit :=
  fun w => (Ok tt, mkWorld (environ w) (files w) (trace w ++ [e])).

(** [assert cond, msg]. *)
Definition assert (cond : bool) (msg : string) : M unit :=
  if cond then ret tt else raise (AssertionError msg).

(** [os.environ[key]]. *)
Definition getenv (key : string) : M string :=
  fun w => match environ w !! key with
           | Some v => (Ok v, w)
           | None => (Raise (KeyError key), w)
           end.

(** [key in os.environ]. *)
Definition hasenv (key : string) : M bool :=
  fun w => (Ok (bool_decide (is_Some (environ w !! key))), w).

(** [f.write(text)] on a file opened with [open(path, 'a')]: [text] goes to
    the end of the file. *)
Definition append_file (path text : string) : M unit :=
  on_files (fun fs => <[path := default "" (fs !! path) +:+ text]> fs);;
  log (EvWrite path text).

Fixpoint write_chunks (path : string) (chunks : list string) : M unit :=
  match chunks with
  | [] => ret tt
  | c :: cs => append_file path c;; write_chunks path cs
  end.

(** The line feed of ['\n']. *)
Definition nl : string := String "010" "".

(** ** The script *)

Section Script.
Context `{Platform}.

(** [open(path, 'a')]: it raises, or the file is there afterwards, empty
    when it was not there before. *)
Definition open_append (path : string) : M unit :=
  fun w => match open_error (files w) path with
           | Some e => (Raise e, w)
           | None =>
               (Ok tt, mkWorld (environ w)
                         (<[path := default "" (files w !! path)]> (files w))
                         (trace w))
           end.

(** [with open(path, 'a') as f:] followed by one [f.write] per chunk. *)
Definition with_open_append (path : string) (chunks : list string) : M unit :=
  open_append path;; write_chunks path chunks.

(** [retrieve_latest_tag]: the Authorization header is sent when
    [GITHUB_TOKEN] is set. *)
Definition retrieve_latest_tag : M string :=
  let url := "https://api.github.com/repos/WebAssembly/wasi-sdk/releases/latest" in
  has_token ← hasenv "GITHUB_TOKEN";
  header ← (if has_token : bool
            then token ← getenv "GITHUB_TOKEN"; mret (Some ("Bearer " +:+ token))
            else mret None);
  lift (urlopen_tag_name url header).

(** [calculate_version_and_tag]. *)
Definition calculate_version_and_tag (version : string) : M (string * string) :=
  '(version, tag) ←
    (if String.eqb version "latest"
     then tag ← retrieve_latest_tag;
          mret (Str.replace "wasi-sdk-" "" tag, tag)
     else let stripped := Str.rstrip ".0" version in
          mret (version, "wasi-sdk-" +:+ stripped));
  let version :=
    if negb (Str.contains "." version) then version +:+ ".0" else version in
  mret (version, tag).

(** [calculate_artifact_url]: no effect, so a plain function. *)
Definition calculate_artifact_url (version tag arch os : string) : string :=
  let base := "https://github.com/WebAssembly/wasi-sdk/releases/download" in
  let os := if String.eqb os "Darwin" then "macos" else Str.lower os in
  let arch := if String.eqb (Str.lower arch) "amd64" then "x86_64" else arch in
  base +:+ "/" +:+ tag +:+ "/wasi-sdk-" +:+ version +:+ "-" +:+ arch +:+ "-"
       +:+ os +:+ ".tar.gz".

(** The body of the loop of [install] over [tar.getmembers()]. *)
Definition extract_member (install_dir : string) (member : TarInfo) : M unit :=
  let parts := Str.split "/" (name member) in
  if bool_decide (1 < List.length parts) then
    let member := set_name member (Str.join "/" (List.tl parts)) in
    log (EvExtract install_dir member);;
    host_call (tar_extract member install_dir)
  else mret tt.

(** The loop: an exception of [tar.extract] ends it. *)
Fixpoint extract_members (install_dir : string) (members : list TarInfo) : M unit :=
  match members with
  | [] => mret tt
  | member :: rest =>
      extract_member install_dir member;; extract_members install_dir rest
  end.

(** [install]. *)
Definition install (url install_dir : string) : M (string * string) :=
  fs ← get_files;
  file ← lift (named_temporary_file fs);
  on_files (fun fs => <[file := ""]> fs);;
  host_call (fun fs => (fst (urlretrieve url), <[file := snd (urlretrieve url)]> fs));;
  host_call (makedirs install_dir);;
  fs ← get_files;
  members ← lift (tar_getmembers fs file);
  extract_members install_dir members;;
  let ext := if String.eqb sep "\" then ".exe" else "" in
  let clang_path := install_dir +:+ sep +:+ "bin" +:+ sep +:+ "clang" +:+ ext in
  fs ← get_files;
  assert (isfile fs clang_path) ("clang not found at " +:+ clang_path);;
  let sysroot_path := install_dir +:+ sep +:+ "share" +:+ sep +:+ "wasi-sysroot" in
  fs ← get_files;
  assert (isdir fs sysroot_path) ("sysroot not found at " +:+ sysroot_path);;
  mret (clang_path, sysroot_path).

(** [install] up to and with [tar.getmembers()]: the entries the loop is
    about to go through. *)
Definition install_open (url install_dir : string) : M (list TarInfo) :=
  fs ← get_files;
  file ← lift (named_temporary_file fs);
  on_files (fun fs => <[file := ""]> fs);;
  host_call (fun fs => (fst (urlretrieve url), <[file := snd (urlretrieve url)]> fs));;
  host_call (makedirs install_dir);;
  fs ← get_files;
  lift (tar_getmembers fs file).

(** The four lines [write_github_path] writes to the environment file. *)
Definition github_env_lines (install_dir version clang_path sysroot_path : string)
  : list string :=
  [ "WASI_SDK_PATH=" +:+ install_dir +:+ nl;
    "WASI_SDK_VERSION=" +:+ version +:+ nl;
    "CC=" +:+ clang_path +:+ " --sysroot=" +:+ sysroot_path +:+ nl;
    "CXX=" +:+ clang_path +:+ "++ --sysroot=" +:+ sysroot_path +:+ nl ].

(** [write_github_path]. *)
Definition write_github_path
    (install_dir version clang_path sysroot_path : string) : M unit :=
  has_path ← hasenv "GITHUB_PATH";
  assert has_path "GITHUB_PATH environment variable must be set";;
  path_file ← getenv "GITHUB_PATH";
  with_open_append path_file [dirname clang_path];;
  env_file ← getenv "GITHUB_ENV";
  with_open_append env_file
    (github_env_lines install_dir version clang_path sysroot_path).

(** The four lines [write_github_output] writes to the output file. *)
Definition github_output_lines
    (install_dir version clang_path sysroot_path : string) : list string :=
  [ "wasi-sdk-path=" +:+ install_dir +:+ nl;
    "wasi-sdk-version=" +:+ version +:+ nl;
    "clang-path=" +:+ clang_path +:+ nl;
    "sysroot-path=" +:+ sysroot_path +:+ nl ].

(** [write_github_output]. *)
Definition write_github_output
    (install_dir version clang_path sysroot_path : string) : M unit :=
  has_output ← hasenv "GITHUB_OUTPUT";
  assert has_output "GITHUB_OUTPUT environment variable must be set";;
  output_file ← getenv "GITHUB_OUTPUT";
  with_open_append output_file
    (github_output_lines install_dir version clang_path sysroot_path).

(** [main]. *)
Definition main (version install_dir : string) (add_to_path : bool) : M unit :=
  let install_dir := abspath install_dir in
  '(version, tag) ← calculate_version_and_tag version;
  let url := calculate_artifact_url version tag machine system in
  '(clang_path, sysroot_path) ← install url install_dir;
  (if add_to_path
   then write_github_path install_dir version clang_path sysroot_path
   else mret tt);;
  has_output ← hasenv "GITHUB_OUTPUT";
  if has_output : bool
  then write_github_output install_dir version clang_path sysroot_path
  else mret tt.

(** [main] up to and with the call of [install]: what the CI export
    starts from. *)
Definition main_install (version install_dir : string)
  : M (string * string * string * string) :=
  let install_dir := abspath install_dir in
  '(version, tag) ← calculate_version_and_tag version;
  let url := calculate_artifact_url version tag machine system in
  '(clang_path, sysroot_path) ← install url install_dir;
  mret (install_dir, version, clang_path, sysroot_path).

End Script.

(** The [f.write] calls of a trace, in order. *)
Definition writes (t : list event) : list (string * string) :=
  omap (fun e => match e with
                 | EvWrite path text => Some (path, text)
                 | EvExtract _ _ => None
                 end) t.

(** The members handed to [tar.extract] in a trace, in order. *)
Definition extracts (t : list event) : list (string * TarInfo) :=
  omap (fun e => match e with
                 | EvExtract dir member => Some (dir, member)
                 | EvWrite _ _ => None
                 end) t.

(** From [w] to [w'] the environment is kept, the trace has grown by
    [f.write] calls only, and every file that existed holds what it held,
    possibly with more after it. *)
Definition appends_only (w w' : World) : Prop :=
  environ w' = environ w
  /\ (exists ws : list (string * string),
        trace w' = (trace w ++ map (fun pt => EvWrite (fst pt) (snd pt)) ws)%list)
  /\ (forall (path old : string),
        files w !! path = Some old ->
        exists more : string, files w' !! path = Some (old +:+ more)).

(** ** The extraction and the URL builder as the spec words them *)

Module Spec.

(** "strips exactly one leading path component from every archive entry
    name; entries whose name has only one segment are skipped": the entries
    to extract, under their new names, in the order of the archive. *)
Definition stripped_members (members : list TarInfo) : list TarInfo :=
  flat_map (fun member =>
              match Str.split "/" (name member) with
              | _ :: second :: others =>
                  [set_name member (Str.join "/" (second :: others))]
              | _ => []
              end) members.

(** "OS Darwin maps to macos, all others lowercased". *)
Definition os_name (os : string) : string :=
  if String.eqb os "Darwin" then "macos" else Str.lower os.

(** "architecture amd64 maps to x86_64, all others unchanged". *)
Definition arch_name (arch : string) : string :=
  if String.eqb arch "amd64" then "x86_64" else arch.

Definition artifact_url (version tag arch os : string) : string :=
  "https://github.com/WebAssembly/wasi-sdk/releases/download/" +:+ tag
  +:+ "/wasi-sdk-" +:+ version +:+ "-" +:+ arch_name arch +:+ "-"
  +:+ os_name os +:+ ".tar.gz".

End Spec.

(** ** A host to run the script on *)

Module Posix.

(** [p[:p.rfind('/') + 1]]. *)
Fixpoint dir_head (p : string) : string :=
  match p with
  | "" => ""
  | String c p' => if Str.mem "/" p then String c (dir_head p') else ""
  end.

(** [s * n]. *)
Fixpoint repeat_str (s : string) (n : nat) : string :=
  match n with
  | O => ""
  | S n' => s +:+ repeat_str s n'
  end.

(** [posixpath.dirname], as the Python library has it. *)
Definition posixpath_dirname (p : string) : string :=
  let head := dir_head p in
  if negb (String.eqb head "")
     && negb (String.eqb head (repeat_str "/" (String.length head)))
  then Str.rstrip "/" head
  else head.

(** The archive of release 25, cut down to three entries. *)
Definition sdk_25 : list TarInfo :=
  [ mkTarInfo "wasi-sdk-25.0-x86_64-linux" "";
    mkTarInfo "wasi-sdk-25.0-x86_64-linux/bin/clang" "ELF";
    mkTarInfo "wasi-sdk-25.0-x86_64-linux/share/wasi-sysroot/VERSION" "25" ].

(** A path is under a file when a file's path and ['/'] begin it. *)
Definition under_a_file (fs : gmap string string) (p : string) : bool :=
  existsb (fun kv => Str.startswith (fst kv +:+ "/") p) (map_to_list fs).

(** A path is a directory when it and ['/'] begin a file's path. *)
Definition is_directory (fs : gmap string string) (p : string) : bool :=
  existsb (fun kv => Str.startswith (p +:+ "/") (fst kv)) (map_to_list fs).

(** A Linux machine: a file is a key of the map, a directory is a proper
    prefix of a key.  Nothing can be made under a file, no file can be
    opened at the empty path or at a directory.  The network gives [latest]
    for the latest release, [download] for a download and [archive] for the
    entries of what was downloaded. *)
Definition machine_of (latest : result string)
    (download : string -> result unit * string)
    (archive : result (list TarInfo)) : Platform := {|
  sep := "/";
  machine := "x86_64";
  system := "Linux";
  abspath p := if Str.startswith "/" p then p else "/work/" +:+ p;
  dirname := posixpath_dirname;
  urlopen_tag_name _ _ := latest;
  named_temporary_file _ := Ok "/tmp/tmpa1b2c3";
  urlretrieve := download;
  makedirs dir fs :=
    if bool_decide (is_Some (fs !! dir)) || under_a_file fs dir
    then (Raise (OSError "FileExistsError"), fs) else (Ok tt, fs);
  tar_getmembers _ _ := archive;
  tar_extract member path fs :=
    let target := path +:+ "/" +:+ name member in
    if under_a_file fs target
    then (Raise (OSError "NotADirectoryError"), fs)
    else (Ok tt, <[target := data member]> fs);
  isfile fs p := bool_decide (is_Some (fs !! p));
  isdir := is_directory;
  open_error fs p :=
    if String.eqb p "" then Some (OSError "FileNotFoundError")
    else if is_directory fs p then Some (OSError "IsADirectoryError")
    else None
|}.

(** The machine whose network gives [tag] for the latest release and the
    archive of release 25 for any download. *)
Definition serving (tag : string) : Platform :=
  machine_of (Ok tag) (fun url => (Ok tt, url)) (Ok sdk_25).

#[global] Instance host : Platform := serving "wasi-sdk-25".

(** The same machine with any network. *)
Definition host_of (latest : result string) (download : result unit * string)
    (archive : result (list TarInfo)) : Platform :=
  machine_of latest (fun _ => download) archive.

(** No network at all. *)
Definition offline : Platform :=
  host_of (Raise NetworkError) (Raise NetworkError, "") (Ok sdk_25).

(** A connection that breaks during the download. *)
Definition cut_off : Platform :=
  host_of (Ok "wasi-sdk-25") (Raise NetworkError, "half") (Ok sdk_25).

(** A download that is not an archive. *)
Definition corrupt : Platform :=
  host_of (Ok "wasi-sdk-25") (Ok tt, "<html>") (Raise ReadError).

(** An archive without the compiler. *)
Definition no_clang : Platform :=
  host_of (Ok "wasi-sdk-25") (Ok tt, "tgz")
    (Ok [mkTarInfo "top/share/wasi-sysroot/VERSION" "25"]).

(** An archive without the sysroot. *)
Definition no_sysroot : Platform :=
  host_of (Ok "wasi-sdk-25") (Ok tt, "tgz") (Ok [mkTarInfo "top/bin/clang" "ELF"]).


(** An archive with entries that lead out of the install directory. *)
Definition escaping : Platform :=
  host_of (Ok "wasi-sdk-25") (Ok tt, "tgz")
    (Ok [ mkTarInfo "top" "";
          mkTarInfo "top/../x" "outside";
          mkTarInfo "top//etc/passwd" "root" ]).

(** A process with no CI variable set, and one with all three. *)
Definition bare : World := mkWorld ∅ ∅ [].

Definition ci : World :=
  mkWorld (<["GITHUB_PATH" := "/ci/path"]>
           (<["GITHUB_ENV" := "/ci/env"]>
            (<["GITHUB_OUTPUT" := "/ci/output"]> ∅))) ∅ [].

(** A process with [GITHUB_PATH] set and [GITHUB_ENV] not. *)
Definition path_only : World :=
  mkWorld (<["GITHUB_PATH" := "/ci/path"]> ∅) ∅ [].

(** A process with [GITHUB_OUTPUT] set and [GITHUB_PATH] not. *)
Definition output_only : World :=
  mkWorld (<["GITHUB_OUTPUT" := "/ci/output"]> ∅) ∅ [].


End Posix.

(** ** Facts about the string methods *)

Section StrFacts.
Import Str.

Lemma append_cons (c : ascii) (a b : string) : String c a +:+ b = String c (a +:+ b).
Proof. reflexivity. Qed.

Lemma append_nil_l (a : string) : "" +:+ a = a.
Proof. reflexivity. Qed.

Lemma append_assoc (a b c : string) : (a +:+ b) +:+ c = a +:+ (b +:+ c).
Proof.
  induction a as [|x a IH]; [reflexivity|].
  now rewrite !append_cons, IH.
Qed.

Lemma append_empty_r (a : string) : a +:+ "" = a.
Proof.
  induction a as [|x a IH]; [reflexivity|].
  now rewrite append_cons, IH.
Qed.

Lemma startswith_append (pre rest : string) : startswith pre (pre +:+ rest) = true.
Proof.
  induction pre as [|c pre IH]; [reflexivity|].
  rewrite append_cons. simpl. now rewrite Ascii.eqb_refl, IH.
Qed.

Lemma drop_append (pre rest : string) : drop (String.length pre) (pre +:+ rest) = rest.
Proof.
  induction pre as [|c pre IH]; [now destruct rest|].
  rewrite append_cons. exact IH.
Qed.

Lemma contains_here (sub s : string) : startswith sub s = true -> contains sub s = true.
Proof. intros E. destruct s; simpl; now rewrite E. Qed.

Lemma contains_append (sub front back : string) :
  contains sub (front +:+ sub +:+ back) = true.
Proof.
  induction front as [|c front IH].
  - rewrite append_nil_l. apply contains_here, startswith_append.
  - rewrite append_cons. simpl. rewrite IH. apply orb_true_r.
Qed.

Lemma contains_cons_false (sub : string) (c : ascii) (s : string) :
  contains sub (String c s) = false ->
  startswith sub (String c s) = false /\ contains sub s = false.
Proof. simpl. intros E. now apply orb_false_iff in E. Qed.

(** Passing over [skip] characters is scanning what is left after them. *)
Lemma replace_from_skip (old new : string) (skip : nat) (s : string) :
  replace_from old new skip s = replace_from old new 0 (drop skip s).
Proof.
  revert skip. induction s as [|c s IH]; intros [|k]; try reflexivity.
  simpl replace_from at 1. simpl drop. apply IH.
Qed.

(** The scan at an occurrence of [old]. *)
Lemma replace_from_here (old new s : string) :
  old <> "" -> startswith old s = true ->
  replace_from old new 0 s
  = new +:+ replace_from old new 0 (drop (String.length old) s).
Proof.
  intros Hold Hs. destruct s as [|c s].
  - destruct old; [congruence | discriminate].
  - simpl replace_from. rewrite Hs. rewrite replace_from_skip.
    destruct old as [|o old]; [congruence|]. simpl. now rewrite Nat.sub_0_r.
Qed.

(** A string in which [old] does not occur is left as it is. *)
Lemma replace_from_absent (old new s : string) :
  contains old s = false -> replace_from old new 0 s = s.
Proof.
  induction s as [|c s IH]; intros E; [reflexivity|].
  apply contains_cons_false in E as [E1 E2].
  simpl replace_from. rewrite E1. now rewrite IH.
Qed.

(** One leading occurrence and no other: [replace] removes the prefix. *)
Lemma replace_leading_only (old rest : string) :
  old <> "" -> contains old rest = false ->
  replace old "" (old +:+ rest) = rest.
Proof.
  intros Hold E.
  assert (replace old "" (old +:+ rest) = replace_from old "" 0 (old +:+ rest))
    as -> by (destruct old; [congruence | reflexivity]).
  rewrite replace_from_here by (auto using startswith_append).
  rewrite drop_append, append_nil_l. now apply replace_from_absent.
Qed.

Lemma removeprefix_append (pre rest : string) : removeprefix pre (pre +:+ rest) = rest.
Proof. unfold removeprefix. now rewrite startswith_append, drop_append. Qed.

End StrFacts.

(** ** Version resolver *)

Section VersionResolver.
Context `{Platform}.

(** [retrieve_latest_tag] gives what the network gives and writes nothing. *)
Lemma retrieve_latest_tag_world (w : World) :
  snd (retrieve_latest_tag w) = w.
Proof.
  unfold retrieve_latest_tag, hasenv, getenv, lift, mbind, M_bind, bind, mret,
    M_ret, ret.
  case_bool_decide as E; [|reflexivity].
  destruct E as [token ->]. reflexivity.
Qed.

(** The result for a version given by the user. *)
Lemma calculate_version_and_tag_given (version : string) (w : World) :
  version <> "latest" ->
  calculate_version_and_tag version w
  = (Ok (if negb (Str.contains "." version) then version +:+ ".0" else version,
         "wasi-sdk-" +:+ Str.rstrip ".0" version), w).
Proof.
  intros Hne. unfold calculate_version_and_tag.
  apply String.eqb_neq in Hne. rewrite Hne. reflexivity.
Qed.

(** The result for ["latest"]. *)
Lemma calculate_version_and_tag_latest (w : World) :
  calculate_version_and_tag "latest" w
  = match fst (retrieve_latest_tag w) with
    | Ok tag =>
        let version := Str.replace "wasi-sdk-" "" tag in
        (Ok (if negb (Str.contains "." version) then version +:+ ".0" else version,
             tag), w)
    | Raise e => (Raise e, w)
    end.
Proof.
  pose proof (retrieve_latest_tag_world w) as Hw.
  unfold calculate_version_and_tag. rewrite String.eqb_refl.
  unfold mbind, M_bind, bind at 1. unfold bind at 1.
  destruct (retrieve_latest_tag w) as [[tag|e] w']; simpl in *; subst w'; reflexivity.
Qed.

(** Whatever the input, a version that is returned has a ['.']. *)
Lemma returned_version_has_dot (version : string) (w : World)
    (v t : string) (w' : World) :
  calculate_version_and_tag version w = (Ok (v, t), w') ->
  Str.contains "." v = true.
Proof.
  assert (Hnorm : forall s,
    Str.contains "." (if negb (Str.contains "." s) then s +:+ ".0" else s) = true).
  { intros s. destruct (Str.contains "." s) eqn:E; simpl; [exact E|].
    apply (contains_append "." s "0"). }
  destruct (String.eqb_spec version "latest") as [->|Hne].
  - rewrite calculate_version_and_tag_latest.
    destruct (fst (retrieve_latest_tag w)); [|discriminate].
    cbv zeta. intros [= <- _ _]. apply Hnorm.
  - rewrite calculate_version_and_tag_given by assumption.
    intros [= <- _ _]. apply Hnorm.
Qed.

End VersionResolver.

Section VersionClaims.
Context `{Platform}.

(** The doctests of [calculate_version_and_tag]. *)
Example calculate_version_and_tag_doctests (w : World) :
  calculate_version_and_tag "25" w = (Ok ("25.0", "wasi-sdk-25"), w)
  /\ calculate_version_and_tag "25.0" w = (Ok ("25.0", "wasi-sdk-25"), w)
  /\ calculate_version_and_tag "25.1" w = (Ok ("25.1", "wasi-sdk-25.1"), w).
Proof. repeat split; now rewrite calculate_version_and_tag_given. Qed.

(** C1. The tag is not the version without a trailing ".0": [rstrip('.0')]
    drops every trailing ['0'] and ['.'], so the versions "20" and "20.0" get
    the tag "wasi-sdk-2", where removing the suffix ".0" gives "wasi-sdk-20". *)
Theorem tag_of_version_ending_in_zero (w : World) :
  calculate_version_and_tag "20" w = (Ok ("20.0", "wasi-sdk-2"), w)
  /\ "wasi-sdk-" +:+ Str.removesuffix ".0" "20" = "wasi-sdk-20"
  /\ calculate_version_and_tag "20.0" w = (Ok ("20.0", "wasi-sdk-2"), w)
  /\ "wasi-sdk-" +:+ Str.removesuffix ".0" "20.0" = "wasi-sdk-20".
Proof.
  repeat split; try reflexivity; now rewrite calculate_version_and_tag_given.
Qed.

(** C5. A version other than "latest" with no ['.'] is returned with ".0"
    appended, and every version that is returned, for any input, has a
    ['.']. *)
Theorem version_without_dot_gets_minor :
  (forall (version : string) (w : World),
      version <> "latest" -> Str.contains "." version = false ->
      exists tag,
        calculate_version_and_tag version w = (Ok (version +:+ ".0", tag), w))
  /\ (forall (version : string) (w : World) (v t : string) (w' : World),
      calculate_version_and_tag version w = (Ok (v, t), w') ->
      Str.contains "." v = true).
Proof.
  split.
  - intros version w Hne Hdot. eexists.
    rewrite calculate_version_and_tag_given by assumption.
    now rewrite Hdot.
  - apply returned_version_has_dot.
Qed.

(** C10. A version other than "latest" that has a ['.'] is returned as it
    is, and resolving a version that was returned returns it again. *)
Theorem version_with_dot_is_kept :
  (forall (version : string) (w : World),
      version <> "latest" -> Str.contains "." version = true ->
      exists tag,
        calculate_version_and_tag version w = (Ok (version, tag), w))
  /\ (forall (version : string) (w : World) (v t : string) (w' : World),
      calculate_version_and_tag version w = (Ok (v, t), w') ->
      exists tag, calculate_version_and_tag v w' = (Ok (v, tag), w')).
Proof.
  assert (Hkept : forall (version : string) (w : World),
    version <> "latest" -> Str.contains "." version = true ->
    exists tag, calculate_version_and_tag version w = (Ok (version, tag), w)).
  { intros version w Hne Hdot. eexists.
    rewrite calculate_version_and_tag_given by assumption.
    now rewrite Hdot. }
  split; [exact Hkept|].
  intros version w v t w' Hrun. apply Hkept.
  - intros ->. apply returned_version_has_dot in Hrun. discriminate.
  - eapply returned_version_has_dot, Hrun.
Qed.

(** C6, as the code has it. For "latest" the version is the tag with every
    occurrence of "wasi-sdk-" removed, and ".0" appended when that has no
    ['.']; for a tag that is "wasi-sdk-" followed by a rest in which
    "wasi-sdk-" does not occur, what is removed is the leading prefix. *)
Theorem latest_version_drops_every_occurrence (w : World) (tag : string) :
  fst (retrieve_latest_tag w) = Ok tag ->
  calculate_version_and_tag "latest" w
  = (Ok (let version := Str.replace "wasi-sdk-" "" tag in
         if negb (Str.contains "." version) then version +:+ ".0" else version,
         tag), w)
  /\ (forall rest : string,
        tag = "wasi-sdk-" +:+ rest -> Str.contains "wasi-sdk-" rest = false ->
        Str.replace "wasi-sdk-" "" tag = rest
        /\ Str.replace "wasi-sdk-" "" tag = Str.removeprefix "wasi-sdk-" tag).
Proof.
  intros Htag. split.
  - rewrite calculate_version_and_tag_latest, Htag. reflexivity.
  - intros rest -> Hrest.
    rewrite removeprefix_append. split; [|idtac]; now apply replace_leading_only.
Qed.

End VersionClaims.

(** C5 at version "25". *)
Lemma version_without_dot_gets_minor_witness :
  "25" <> "latest" /\ Str.contains "." "25" = false
  /\ (exists tag, calculate_version_and_tag "25" Posix.bare
                  = (Ok ("25" +:+ ".0", tag), Posix.bare))
  /\ Str.contains "." "25.0" = true.
Proof.
  split; [discriminate|]. split; [reflexivity|]. split.
  - apply (proj1 version_without_dot_gets_minor); [discriminate | reflexivity].
  - apply (proj2 version_without_dot_gets_minor "25" Posix.bare "25.0"
             "wasi-sdk-25" Posix.bare). reflexivity.
Defined.

(** C10 at version "25.1", and at the version returned for "25". *)
Lemma version_with_dot_is_kept_witness :
  "25.1" <> "latest" /\ Str.contains "." "25.1" = true
  /\ (exists tag, calculate_version_and_tag "25.1" Posix.bare
                  = (Ok ("25.1", tag), Posix.bare))
  /\ (exists tag, calculate_version_and_tag "25.0" Posix.bare
                  = (Ok ("25.0", tag), Posix.bare)).
Proof.
  split; [discriminate|]. split; [reflexivity|]. split.
  - apply (proj1 version_with_dot_is_kept); [discriminate | reflexivity].
  - apply (proj2 version_with_dot_is_kept "25" Posix.bare "25.0"
             "wasi-sdk-25" Posix.bare). reflexivity.
Defined.

(** C6 as amended, at the tag "wasi-sdk-25". *)
Lemma latest_version_drops_every_occurrence_witness :
  fst (retrieve_latest_tag Posix.bare) = Ok "wasi-sdk-25"
  /\ calculate_version_and_tag "latest" Posix.bare
     = (Ok ("25.0", "wasi-sdk-25"), Posix.bare)
  /\ Str.replace "wasi-sdk-" "" "wasi-sdk-25" = "25".
Proof.
  assert (Htag : fst (retrieve_latest_tag Posix.bare) = Ok "wasi-sdk-25")
    by reflexivity.
  split; [exact Htag|].
  destruct (latest_version_drops_every_occurrence Posix.bare "wasi-sdk-25" Htag)
    as [Hrun Hpre].
  split; [exact Hrun|].
  apply (Hpre "25"); reflexivity.
Defined.

(** C6 as stated fails: for the tag "wasi-sdk-25-wasi-sdk-rc.1" the version
    is "25-rc.1", and removing the leading prefix gives "25-wasi-sdk-rc.1". *)
Lemma latest_version_is_not_prefix_removal :
  let tag := "wasi-sdk-25-wasi-sdk-rc.1" in
  @calculate_version_and_tag (Posix.serving tag) "latest" Posix.bare
  = (Ok ("25-rc.1", tag), Posix.bare)
  /\ Str.removeprefix "wasi-sdk-" tag = "25-wasi-sdk-rc.1"
  /\ "25-rc.1" <> Str.removeprefix "wasi-sdk-" tag.
Proof. repeat split. discriminate. Qed.

(** ** URL builder *)

Section UrlBuilder.
Import Str.

Lemma lower_ascii_idempotent (c : ascii) : lower_ascii (lower_ascii c) = lower_ascii c.
Proof.
  destruct c as [[] [] [] [] [] [] [] []]; reflexivity.
Qed.

(** Lowering a lowered string changes nothing. *)
Lemma lower_idempotent (s : string) : lower (lower s) = lower s.
Proof.
  induction s as [|c s IH]; [reflexivity|].
  simpl. now rewrite lower_ascii_idempotent, IH.
Qed.

Lemma lower_ascii_a (c : ascii) :
  lower_ascii c = "a"%char -> c = "a"%char \/ c = "A"%char.
Proof.
  destruct c as [[] [] [] [] [] [] [] []]; vm_compute; intros E;
    try discriminate E; auto.
Qed.

Lemma lower_ascii_m (c : ascii) :
  lower_ascii c = "m"%char -> c = "m"%char \/ c = "M"%char.
Proof.
  destruct c as [[] [] [] [] [] [] [] []]; vm_compute; intros E;
    try discriminate E; auto.
Qed.

Lemma lower_ascii_d (c : ascii) :
  lower_ascii c = "d"%char -> c = "d"%char \/ c = "D"%char.
Proof.
  destruct c as [[] [] [] [] [] [] [] []]; vm_compute; intros E;
    try discriminate E; auto.
Qed.

Lemma lower_ascii_digit (c d : ascii) :
  d = "6"%char \/ d = "4"%char -> lower_ascii c = d -> c = d.
Proof.
  intros [-> | ->]; destruct c as [[] [] [] [] [] [] [] []]; vm_compute;
    intros E; try discriminate E; auto.
Qed.

(** The architectures the URL builder takes for "amd64": its eight
    spellings in upper and lower case. *)
Lemma lower_amd64 (arch : string) :
  lower arch = "amd64"
  <-> In arch ["amd64"; "amD64"; "aMd64"; "aMD64";
               "Amd64"; "AmD64"; "AMd64"; "AMD64"].
Proof.
  split.
  - destruct arch as [|c1 [|c2 [|c3 [|c4 [|c5 [|c6 r]]]]]]; try discriminate.
    simpl lower. intros [= E1 E2 E3 E4 E5].
    apply lower_ascii_a in E1. apply lower_ascii_m in E2.
    apply lower_ascii_d in E3.
    apply lower_ascii_digit in E4; [|now left].
    apply lower_ascii_digit in E5; [|now right]. subst c4 c5.
    destruct E1 as [-> | ->], E2 as [-> | ->], E3 as [-> | ->]; simpl; tauto.
  - simpl. intros [<-|[<-|[<-|[<-|[<-|[<-|[<-|[<-|[]]]]]]]]]; reflexivity.
Qed.

(** The doctests of [calculate_artifact_url]. *)
Example calculate_artifact_url_doctests :
  calculate_artifact_url "25.0" "wasi-sdk-25" "x86_64" "Linux"
  = "https://github.com/WebAssembly/wasi-sdk/releases/download/wasi-sdk-25/wasi-sdk-25.0-x86_64-linux.tar.gz"
  /\ calculate_artifact_url "25.1" "wasi-sdk-25.1" "arm64" "Darwin"
  = "https://github.com/WebAssembly/wasi-sdk/releases/download/wasi-sdk-25.1/wasi-sdk-25.1-arm64-macos.tar.gz".
Proof. split; reflexivity. Qed.

(** C4, as the code has it, for an architecture and an OS name made of
    ASCII characters, as [platform.machine()] and [platform.system()] give
    them. The URL is a function of its four arguments, built on the
    template; the OS "Darwin" becomes "macos" and any other is lowercased;
    an architecture whose lowercase is "amd64", that is "amd64" in any of
    its eight spellings in upper and lower case, becomes "x86_64" and any
    other is left as it is; the doctest input gives the doctest URL. *)
Theorem artifact_url_template (version tag arch os : string) :
  is_ascii arch = true -> is_ascii os = true ->
  calculate_artifact_url version tag arch os
  = "https://github.com/WebAssembly/wasi-sdk/releases/download/" +:+ tag
    +:+ "/wasi-sdk-" +:+ version +:+ "-"
    +:+ (if String.eqb (lower arch) "amd64" then "x86_64" else arch) +:+ "-"
    +:+ (if String.eqb os "Darwin" then "macos" else lower os) +:+ ".tar.gz"
  /\ (String.eqb (lower arch) "amd64" = true
      <-> In arch ["amd64"; "amD64"; "aMd64"; "aMD64";
                   "Amd64"; "AmD64"; "AMd64"; "AMD64"])
  /\ calculate_artifact_url version tag "amd64" os
     = calculate_artifact_url version tag "x86_64" os
  /\ calculate_artifact_url version tag "AMD64" os
     = calculate_artifact_url version tag "x86_64" os
  /\ calculate_artifact_url version tag arch "Darwin"
     = calculate_artifact_url version tag arch "macos"
  /\ calculate_artifact_url "25.0" "wasi-sdk-25" "x86_64" "Linux"
     = "https://github.com/WebAssembly/wasi-sdk/releases/download/wasi-sdk-25/wasi-sdk-25.0-x86_64-linux.tar.gz".
Proof.
  intros _ _. split; [reflexivity|]. split; [|repeat split].
  rewrite String.eqb_eq. apply lower_amd64.
Qed.

(** C4 as stated fails: "AMD64" is not "amd64", and it is not left as it
    is. *)
Lemma artifact_url_maps_uppercase_amd64 :
  "AMD64" <> "amd64"
  /\ calculate_artifact_url "25.0" "wasi-sdk-25" "AMD64" "Windows"
     = "https://github.com/WebAssembly/wasi-sdk/releases/download/wasi-sdk-25/wasi-sdk-25.0-x86_64-windows.tar.gz"
  /\ Spec.artifact_url "25.0" "wasi-sdk-25" "AMD64" "Windows"
     = "https://github.com/WebAssembly/wasi-sdk/releases/download/wasi-sdk-25/wasi-sdk-25.0-AMD64-windows.tar.gz"
  /\ calculate_artifact_url "25.0" "wasi-sdk-25" "AMD64" "Windows"
     <> Spec.artifact_url "25.0" "wasi-sdk-25" "AMD64" "Windows".
Proof. repeat split; discriminate. Qed.

End UrlBuilder.

(** C4 as amended, at the architecture and the OS name of a Windows
    machine. *)
Lemma artifact_url_template_witness :
  Str.is_ascii "AMD64" = true /\ Str.is_ascii "Windows" = true
  /\ calculate_artifact_url "25.0" "wasi-sdk-25" "AMD64" "Windows"
     = "https://github.com/WebAssembly/wasi-sdk/releases/download/wasi-sdk-25/wasi-sdk-25.0-x86_64-windows.tar.gz".
Proof.
  assert (Harch : Str.is_ascii "AMD64" = true) by reflexivity.
  assert (Hos : Str.is_ascii "Windows" = true) by reflexivity.
  split; [exact Harch|]. split; [exact Hos|].
  rewrite (proj1 (artifact_url_template "25.0" "wasi-sdk-25" "AMD64" "Windows"
                    Harch Hos)).
  reflexivity.
Defined.

(** ** Extraction *)

Section SplitJoin.
Import Str.

Lemma split_nonempty (sep : ascii) (s : string) : split sep s <> [].
Proof.
  destruct s as [|c s]; simpl; [discriminate|].
  destruct (Ascii.eqb c sep); [discriminate|].
  destruct (split sep s); discriminate.
Qed.

Lemma split_length (sep : ascii) (s : string) : 1 <= List.length (split sep s).
Proof.
  pose proof (split_nonempty sep s). destruct (split sep s); simpl; [congruence | lia].
Qed.

(** No segment holds the separator. *)
Lemma split_segments (sep : ascii) (s : string) :
  Forall (fun p => mem sep p = false) (split sep s).
Proof.
  induction s as [|c s IH]; simpl.
  - repeat constructor.
  - destruct (Ascii.eqb c sep) eqn:E.
    + constructor; [reflexivity | exact IH].
    + destruct (split sep s) as [|p ps]; inversion IH; subst.
      * repeat constructor. simpl. now rewrite Ascii.eqb_sym, E.
      * constructor; [|assumption]. simpl. rewrite Ascii.eqb_sym, E. assumption.
Qed.

(** Joining the segments with the separator gives the string back. *)
Lemma join_split (sep : ascii) (s : string) :
  join (String sep "") (split sep s) = s.
Proof.
  induction s as [|c s IH]; [reflexivity|].
  pose proof (split_nonempty sep s) as Hne. simpl.
  destruct (Ascii.eqb_spec c sep) as [->|Hc].
  - destruct (split sep s) as [|p ps]; [congruence|].
    change (join (String sep "") ("" :: p :: ps))
      with (String sep (join (String sep "") (p :: ps))).
    now rewrite IH.
  - destruct (split sep s) as [|p ps]; [congruence|].
    destruct ps as [|q qs]; simpl in *; [now rewrite IH|].
    rewrite append_cons. now rewrite IH.
Qed.

(** A first segment without separator, a separator, and the rest. *)
Lemma split_append (sep : ascii) (first rest : string) :
  mem sep first = false ->
  split sep (first +:+ String sep rest) = first :: split sep rest.
Proof.
  induction first as [|c first IH]; intros Hm.
  - rewrite append_nil_l. simpl. now rewrite Ascii.eqb_refl.
  - simpl in Hm. apply orb_false_iff in Hm as [Hc Hm].
    rewrite append_cons. simpl. rewrite Ascii.eqb_sym, Hc, IH by assumption.
    reflexivity.
Qed.

(** A name of more than one segment is its first segment, a ['/'], and the
    other segments joined. *)
Lemma split_first_rest (s : string) :
  1 < List.length (split "/" s) ->
  s = List.hd "" (split "/" s) +:+ "/" +:+ join "/" (List.tl (split "/" s)).
Proof.
  intros Hlen. pose proof (join_split "/" s) as Hj.
  destruct (split "/" s) as [|p [|q qs]]; simpl in Hlen; try lia.
  now rewrite <- Hj at 1.
Qed.

End SplitJoin.

(** ** Running a computation step by step *)

Section Stepping.
Implicit Types (w : World).

Lemma run_bind {A B} (m : M A) (k : A -> M B) w :
  (m ≫= k) w = match m w with
               | (Ok a, w') => k a w'
               | (Raise e, w') => (Raise e, w')
               end.
Proof. reflexivity. Qed.

Lemma hasenv_set (key value : string) w :
  environ w !! key = Some value -> hasenv key w = (Ok true, w).
Proof.
  intros E. unfold hasenv. now rewrite bool_decide_eq_true_2 by (rewrite E; eauto).
Qed.

Lemma hasenv_unset (key : string) w :
  environ w !! key = None -> hasenv key w = (Ok false, w).
Proof.
  intros E. unfold hasenv.
  now rewrite bool_decide_eq_false_2 by (rewrite E; apply is_Some_None).
Qed.

Lemma getenv_set (key value : string) w :
  environ w !! key = Some value -> getenv key w = (Ok value, w).
Proof. intros E. unfold getenv. now rewrite E. Qed.

Lemma getenv_unset (key : string) w :
  environ w !! key = None -> getenv key w = (Raise (KeyError key), w).
Proof. intros E. unfold getenv. now rewrite E. Qed.

Lemma pair_of_fst {A B} (p : A * B) (a : A) : fst p = a -> p = (a, snd p).
Proof. destruct p. simpl. now intros ->. Qed.

End Stepping.

(** ** Extraction *)

Section Extraction.
Context `{Platform}.

(** The loop body on an entry of more than one segment: the call of
    [tar.extract] is made under the new name, and returns or raises as the
    library does. *)
Lemma extract_member_many (install_dir : string) (member : TarInfo) (w : World) :
  1 < List.length (Str.split "/" (name member)) ->
  extract_member install_dir member w
  = (let renamed :=
       set_name member (Str.join "/" (List.tl (Str.split "/" (name member)))) in
     (fst (tar_extract renamed install_dir (files w)),
      mkWorld (environ w) (snd (tar_extract renamed install_dir (files w)))
              (trace w ++ [EvExtract install_dir renamed]))).
Proof.
  intros Hlen. unfold extract_member.
  rewrite bool_decide_eq_true_2 by exact Hlen. reflexivity.
Qed.

Lemma extract_member_single (install_dir : string) (member : TarInfo) (w : World) :
  List.length (Str.split "/" (name member)) = 1 ->
  extract_member install_dir member w = (Ok tt, w).
Proof.
  intros Hlen. unfold extract_member.
  rewrite bool_decide_eq_false_2 by lia. reflexivity.
Qed.

Lemma extract_members_cons (install_dir : string) (member : TarInfo)
    (rest : list TarInfo) (w : World) :
  extract_members install_dir (member :: rest) w
  = match extract_member install_dir member w with
    | (Ok _, w') => extract_members install_dir rest w'
    | (Raise e, w') => (Raise e, w')
    end.
Proof. reflexivity. Qed.

(** The loop over two lists, one after the other. *)
Lemma extract_members_app (install_dir : string) (before after : list TarInfo)
    (w : World) :
  extract_members install_dir (before ++ after)%list w
  = match extract_members install_dir before w with
    | (Ok _, w') => extract_members install_dir after w'
    | (Raise e, w') => (Raise e, w')
    end.
Proof.
  revert w. induction before as [|m ms IH]; intros w; [reflexivity|].
  rewrite <- app_comm_cons, !extract_members_cons.
  destruct (extract_member install_dir m w) as [[[]|e] w']; [apply IH | reflexivity].
Qed.

(** The entries to extract, as the spec words them, one entry at a time. *)
Lemma stripped_members_cons (member : TarInfo) (rest : list TarInfo) :
  Spec.stripped_members (member :: rest)
  = ((if bool_decide (1 < List.length (Str.split "/" (name member)))
      then [set_name member (Str.join "/" (List.tl (Str.split "/" (name member))))]
      else []) ++ Spec.stripped_members rest)%list.
Proof.
  unfold Spec.stripped_members. simpl flat_map. f_equal.
  destruct (Str.split "/" (name member)) as [|p [|q qs]]; reflexivity.
Qed.

(** What the loop does: it hands to [tar.extract], in order, the first [k]
    of the entries to extract, and it has handed over all of them when it
    returns. *)
Lemma extract_members_calls (install_dir : string) (members : list TarInfo)
    (w : World) :
  exists k : nat,
    trace (snd (extract_members install_dir members w))
    = (trace w ++ map (EvExtract install_dir)
                    (take k (Spec.stripped_members members)))%list
    /\ environ (snd (extract_members install_dir members w)) = environ w
    /\ (fst (extract_members install_dir members w) = Ok tt ->
        k = List.length (Spec.stripped_members members))
    /\ (k < List.length (Spec.stripped_members members) ->
        exists e, fst (extract_members install_dir members w) = Raise e).
Proof.
  revert w. induction members as [|m ms IH]; intros w.
  - exists 0. simpl. rewrite app_nil_r. repeat split; try reflexivity. lia.
  - rewrite extract_members_cons, stripped_members_cons.
    case_bool_decide as Hlen.
    + rewrite extract_member_many by exact Hlen. cbv zeta.
      set (renamed := set_name m (Str.join "/" (List.tl (Str.split "/" (name m))))).
      destruct (tar_extract renamed install_dir (files w)) as [[[]|e] fs'];
        cbn [fst snd].
      * destruct (IH (mkWorld (environ w) fs'
                        (trace w ++ [EvExtract install_dir renamed])))
          as (k & Ht & He & Hok & Hraise).
        exists (S k). cbn [trace environ] in Ht, He. simpl app. simpl take.
        rewrite Ht, He, <- List.app_assoc. simpl.
        repeat split; [intros E; now rewrite (Hok E) | intros Hk; apply Hraise; lia].
      * exists 1. simpl app. simpl take. simpl.
        repeat split; [discriminate | eauto].
    + pose proof (split_length "/" (name m)).
      rewrite extract_member_single by lia. apply IH.
Qed.


(** [install] is [install_open], the loop and the two checks. *)
Lemma install_split (url install_dir : string) (w : World) :
  install url install_dir w
  = match install_open url install_dir w with
    | (Raise e, w1) => (Raise e, w1)
    | (Ok members, w1) =>
        match extract_members install_dir members w1 with
        | (Raise e, w2) => (Raise e, w2)
        | (Ok _, w2) =>
            let clang_path :=
              install_dir +:+ sep +:+ "bin" +:+ sep +:+ "clang"
              +:+ (if String.eqb sep "\" then ".exe" else "") in
            let sysroot_path :=
              install_dir +:+ sep +:+ "share" +:+ sep +:+ "wasi-sysroot" in
            (if isfile (files w2) clang_path
             then if isdir (files w2) sysroot_path
                  then Ok (clang_path, sysroot_path)
                  else Raise (AssertionError
                                ("sysroot not found at " +:+ sysroot_path))
             else Raise (AssertionError ("clang not found at " +:+ clang_path)),
             w2)
        end
    end.
Proof.
  unfold install, install_open, get_files, on_files, host_call, lift, assert,
    raise, mbind, M_bind, bind, mret, M_ret, ret.
  cbv beta iota. cbn [environ files trace].
  destruct (named_temporary_file (files w)) as [file|e]; [|reflexivity].
  cbv beta iota. cbn [environ files trace].
  destruct (urlretrieve url) as [[[]|e] received]; cbn [fst snd]; [|reflexivity].
  destruct (makedirs install_dir _) as [[[]|e] fs']; cbn [fst snd]; [|reflexivity].
  destruct (tar_getmembers fs' file) as [members|e]; [|reflexivity].
  cbv beta iota.
  destruct (extract_members install_dir members _) as [[[]|e] w2]; [|reflexivity].
  cbv beta iota zeta.
  destruct (isfile (files w2) _); cbv beta iota; [|reflexivity].
  destruct (isdir (files w2) _); reflexivity.
Qed.

(** Before the loop the environment is as it was and nothing is extracted
    or written. *)
Lemma install_open_frame (url install_dir : string) (w : World) :
  environ (snd (install_open url install_dir w)) = environ w
  /\ trace (snd (install_open url install_dir w)) = trace w.
Proof.
  unfold install_open, get_files, on_files, host_call, lift, mbind, M_bind, bind.
  cbv beta iota. cbn [environ files trace].
  destruct (named_temporary_file (files w)) as [file|e]; [|split; reflexivity].
  cbv beta iota. cbn [environ files trace].
  destruct (urlretrieve url) as [[[]|e] received]; cbn [fst snd];
    [|split; reflexivity].
  destruct (makedirs install_dir _) as [[[]|e] fs']; cbn [fst snd];
    [|split; reflexivity].
  destruct (tar_getmembers fs' file); split; reflexivity.
Qed.

(** What [install] hands to [tar.extract], in every run. *)
Lemma install_calls (url install_dir : string) (w : World) :
  match install_open url install_dir w with
  | (Raise e, w1) => install url install_dir w = (Raise e, w1)
  | (Ok members, w1) =>
      exists k : nat,
        trace (snd (install url install_dir w))
        = (trace w ++ map (EvExtract install_dir)
                        (take k (Spec.stripped_members members)))%list
        /\ environ (snd (install url install_dir w)) = environ w
        /\ (forall paths, fst (install url install_dir w) = Ok paths ->
            k = List.length (Spec.stripped_members members))
        /\ (k < List.length (Spec.stripped_members members) ->
            exists e, fst (install url install_dir w) = Raise e)
  end.
Proof.
  rewrite install_split.
  destruct (install_open_frame url install_dir w) as [He Ht].
  destruct (install_open url install_dir w) as [[members|e] w1]; [|reflexivity].
  cbn [snd] in He, Ht.
  destruct (extract_members_calls install_dir members w1)
    as (k & Hk & Hke & Hok & Hraise).
  exists k.
  destruct (extract_members install_dir members w1) as [[[]|e] w2];
    cbn [fst snd] in *; cbv zeta; cbn [fst snd].
  - rewrite Hk, Hke, Ht, He. repeat split; [intros; now apply Hok|].
    intros Hlt. specialize (Hok eq_refl). lia.
  - rewrite Hk, Hke, Ht, He. repeat split; [discriminate | eauto].
Qed.




(** C8. An entry that the loop of [install] reaches is handed to
    [tar.extract] when its name has more than one segment, under what
    follows the first ['/'] of its name, as it is, whatever that is, "../x"
    or "/etc/passwd"; it is passed over, and the run goes on with the next
    entry, only when its name is one segment. Whether [tar.extract] then
    returns or raises is the library's. *)
Theorem extraction_keeps_unsafe_names
    (url install_dir : string) (w w1 w2 : World)
    (before after : list TarInfo) (member : TarInfo) :
  install_open url install_dir w = (Ok (before ++ member :: after)%list, w1) ->
  extract_members install_dir before w1 = (Ok tt, w2) ->
  (forall first rest : string,
      Str.mem "/" first = false ->
      name member = first +:+ "/" +:+ rest ->
      exists later : list event,
        trace (snd (install url install_dir w))
        = (trace w2 ++ EvExtract install_dir (set_name member rest) :: later)%list)
  /\ (1 < List.length (Str.split "/" (name member)) ->
      exists (rest : string) (later : list event),
        name member
        = List.hd "" (Str.split "/" (name member)) +:+ "/" +:+ rest
        /\ trace (snd (install url install_dir w))
           = (trace w2 ++ EvExtract install_dir (set_name member rest) :: later)%list)
  /\ (List.length (Str.split "/" (name member)) = 1 ->
      snd (install url install_dir w)
      = snd (extract_members install_dir after w2)).
Proof.
  intros Hopen Hbefore.
  assert (Hmany : forall rest,
    1 < List.length (Str.split "/" (name member)) ->
    Str.join "/" (List.tl (Str.split "/" (name member))) = rest ->
    exists later : list event,
      trace (snd (install url install_dir w))
      = (trace w2 ++ EvExtract install_dir (set_name member rest) :: later)%list).
  { intros rest Hlen Hrest.
    rewrite install_split, Hopen, extract_members_app, Hbefore.
    rewrite extract_members_cons, extract_member_many by exact Hlen.
    cbv zeta. rewrite Hrest.
    destruct (tar_extract (set_name member rest) install_dir (files w2))
      as [[[]|e] fs']; cbn [fst snd]; [|exists []; reflexivity].
    match goal with
    | |- context [extract_members install_dir after ?w3] =>
        destruct (extract_members_calls install_dir after w3)
          as (k & Ht & _ & _ & _);
        destruct (extract_members install_dir after w3) as [[[]|e] w4]
    end; cbn [snd trace] in *; cbv zeta; cbn [snd];
      rewrite Ht, <- List.app_assoc; eexists; reflexivity. }
  split; [|split].
  - intros first rest Hfirst Hname.
    assert (Hsplit : Str.split "/" (name member) = first :: Str.split "/" rest)
      by (rewrite Hname; now apply split_append).
    pose proof (split_length "/" rest) as Hrest.
    apply Hmany; rewrite Hsplit; [simpl; lia|]. simpl List.tl.
    apply join_split.
  - intros Hlen. exists (Str.join "/" (List.tl (Str.split "/" (name member)))).
    destruct (Hmany _ Hlen eq_refl) as [later Hlater]. exists later.
    split; [now apply split_first_rest | exact Hlater].
  - intros Hlen.
    rewrite install_split, Hopen, extract_members_app, Hbefore.
    rewrite extract_members_cons, extract_member_single by exact Hlen.
    destruct (extract_members install_dir after w2) as [[[]|e] w3];
      reflexivity.
Qed.

End Extraction.

(** ** CI export *)

Section Appending.
Context `{Platform}.

Lemma write_chunks_run (path : string) (chunks : list string) (w : World)
    (old : string) :
  files w !! path = Some old ->
  write_chunks path chunks w
  = (Ok tt, mkWorld (environ w)
              (<[path := old +:+ Str.concat chunks]> (files w))
              (trace w ++ map (EvWrite path) chunks)%list).
Proof.
  revert w old. induction chunks as [|c cs IH]; intros [env fs t] old Hold;
    simpl in Hold.
  - simpl. unfold ret. rewrite append_empty_r, app_nil_r.
    now rewrite insert_id.
  - change (write_chunks path (c :: cs) (mkWorld env fs t))
      with (write_chunks path cs
              (mkWorld env (<[path := default "" (fs !! path) +:+ c]> fs)
                       (t ++ [EvWrite path c])%list)).
    rewrite Hold. simpl default.
    rewrite (IH _ (old +:+ c)) by (simpl; apply lookup_insert_eq).
    simpl. rewrite insert_insert_eq, append_assoc, <- app_assoc. reflexivity.
Qed.

(** Opening for appending and writing the chunks: [open] raises and nothing
    is written, or the chunks are put, in order, at the end of the file, one
    write per chunk. *)
Lemma with_open_append_cases (path : string) (chunks : list string) (w : World) :
  with_open_append path chunks w
  = match open_error (files w) path with
    | Some e => (Raise e, w)
    | None =>
        (Ok tt, mkWorld (environ w)
                  (<[path := default "" (files w !! path) +:+ Str.concat chunks]>
                     (files w))
                  (trace w ++ map (EvWrite path) chunks)%list)
    end.
Proof.
  destruct w as [env fs t].
  unfold with_open_append. rewrite run_bind. unfold open_append. cbn [files environ trace].
  destruct (open_error fs path) as [e|]; [reflexivity|]. cbv beta iota.
  rewrite (write_chunks_run _ _ _ (default "" (fs !! path)))
    by (simpl; apply lookup_insert_eq).
  simpl. now rewrite insert_insert_eq.
Qed.

Lemma with_open_append_run (path : string) (chunks : list string) (w : World) :
  open_error (files w) path = None ->
  with_open_append path chunks w
  = (Ok tt, mkWorld (environ w)
              (<[path := default "" (files w !! path) +:+ Str.concat chunks]>
                 (files w))
              (trace w ++ map (EvWrite path) chunks)%list).
Proof. intros E. now rewrite with_open_append_cases, E. Qed.

End Appending.

Section CiExport.
Context `{Platform}.
Implicit Types (install_dir version clang_path sysroot_path : string) (w : World).

(** Every run of [write_github_path]. *)
Lemma write_github_path_cases install_dir version clang_path sysroot_path w :
  write_github_path install_dir version clang_path sysroot_path w
  = match environ w !! "GITHUB_PATH" with
    | None =>
        (Raise (AssertionError "GITHUB_PATH environment variable must be set"), w)
    | Some path_file =>
        match open_error (files w) path_file with
        | Some e => (Raise e, w)
        | None =>
            let fs := <[path_file := default "" (files w !! path_file)
                                     +:+ dirname clang_path]> (files w) in
            let t := (trace w ++ [EvWrite path_file (dirname clang_path)])%list in
            match environ w !! "GITHUB_ENV" with
            | None => (Raise (KeyError "GITHUB_ENV"), mkWorld (environ w) fs t)
            | Some env_file =>
                match open_error fs env_file with
                | Some e => (Raise e, mkWorld (environ w) fs t)
                | None =>
                    (Ok tt,
                     mkWorld (environ w)
                       (<[env_file := default "" (fs !! env_file) +:+ Str.concat
                            (github_env_lines install_dir version clang_path
                               sysroot_path)]> fs)
                       (trace w ++ EvWrite path_file (dirname clang_path)
                          :: map (EvWrite env_file)
                               (github_env_lines install_dir version clang_path
                                  sysroot_path))%list)
                end
            end
        end
    end.
Proof.
  unfold write_github_path.
  destruct (environ w !! "GITHUB_PATH") as [path_file|] eqn:Ep;
    [|now rewrite run_bind, (hasenv_unset _ _ Ep)].
  rewrite run_bind, (hasenv_set _ _ _ Ep). cbv beta iota.
  rewrite run_bind. change (assert true _ w) with (Ok tt, w). cbv beta iota.
  rewrite run_bind, (getenv_set _ _ _ Ep). cbv beta iota.
  rewrite run_bind, with_open_append_cases.
  destruct (open_error (files w) path_file) as [e|]; [reflexivity|].
  cbv beta iota zeta.
  unfold Str.concat at 1. simpl fold_right at 1. rewrite append_empty_r.
  simpl map at 1.
  destruct (environ w !! "GITHUB_ENV") as [env_file|] eqn:Ee.
  - rewrite run_bind, (getenv_set _ env_file) by exact Ee. cbv beta iota.
    rewrite with_open_append_cases. cbn [environ files trace].
    destruct (open_error _ env_file) as [e|]; [reflexivity|].
    rewrite <- app_assoc. reflexivity.
  - rewrite run_bind, getenv_unset by exact Ee. reflexivity.
Qed.

(** [GITHUB_PATH] unset: the assertion fails and nothing is written. *)
Lemma write_github_path_without_path install_dir version clang_path sysroot_path w :
  environ w !! "GITHUB_PATH" = None ->
  write_github_path install_dir version clang_path sysroot_path w
  = (Raise (AssertionError "GITHUB_PATH environment variable must be set"), w).
Proof. intros E. now rewrite write_github_path_cases, E. Qed.

(** [GITHUB_PATH] set and [GITHUB_ENV] unset: the path file, when it can be
    opened, is written, and then the lookup of [GITHUB_ENV] raises. *)
Lemma write_github_path_without_env install_dir version clang_path sysroot_path w
    (path_file : string) :
  environ w !! "GITHUB_PATH" = Some path_file ->
  environ w !! "GITHUB_ENV" = None ->
  open_error (files w) path_file = None ->
  write_github_path install_dir version clang_path sysroot_path w
  = (Raise (KeyError "GITHUB_ENV"),
     mkWorld (environ w)
       (<[path_file := default "" (files w !! path_file) +:+ dirname clang_path]>
          (files w))
       (trace w ++ [EvWrite path_file (dirname clang_path)])%list).
Proof. intros Ep Ee Eo. now rewrite write_github_path_cases, Ep, Eo, Ee. Qed.

(** Both set and both files opened: the directory goes to the path file,
    the four lines to the environment file. *)
Lemma write_github_path_run install_dir version clang_path sysroot_path w
    (path_file env_file : string) :
  environ w !! "GITHUB_PATH" = Some path_file ->
  environ w !! "GITHUB_ENV" = Some env_file ->
  open_error (files w) path_file = None ->
  open_error (<[path_file := default "" (files w !! path_file)
                             +:+ dirname clang_path]> (files w)) env_file = None ->
  write_github_path install_dir version clang_path sysroot_path w
  = (Ok tt,
     let fs := <[path_file := default "" (files w !! path_file)
                              +:+ dirname clang_path]> (files w) in
     mkWorld (environ w)
       (<[env_file := default "" (fs !! env_file) +:+ Str.concat
            (github_env_lines install_dir version clang_path sysroot_path)]> fs)
       (trace w ++ EvWrite path_file (dirname clang_path)
          :: map (EvWrite env_file)
               (github_env_lines install_dir version clang_path sysroot_path))%list).
Proof.
  intros Ep Ee Eo1 Eo2. rewrite write_github_path_cases, Ep, Eo1, Ee. cbv zeta.
  now rewrite Eo2.
Qed.

(** When [write_github_path] returns, both variables were set and both
    files could be opened. *)
Lemma write_github_path_returned install_dir version clang_path sysroot_path w :
  fst (write_github_path install_dir version clang_path sysroot_path w) = Ok tt ->
  exists path_file env_file : string,
    environ w !! "GITHUB_PATH" = Some path_file
    /\ environ w !! "GITHUB_ENV" = Some env_file
    /\ open_error (files w) path_file = None
    /\ open_error (<[path_file := default "" (files w !! path_file)
                                  +:+ dirname clang_path]> (files w)) env_file
       = None.
Proof.
  rewrite write_github_path_cases.
  destruct (environ w !! "GITHUB_PATH") as [path_file|]; [|discriminate].
  destruct (open_error (files w) path_file) eqn:Eo1; [discriminate|]. cbv zeta.
  destruct (environ w !! "GITHUB_ENV") as [env_file|]; [|discriminate].
  destruct (open_error _ env_file) eqn:Eo2; [discriminate|].
  intros _. now exists path_file, env_file.
Qed.

(** Every run of [write_github_output]. *)
Lemma write_github_output_cases install_dir version clang_path sysroot_path w :
  write_github_output install_dir version clang_path sysroot_path w
  = match environ w !! "GITHUB_OUTPUT" with
    | None =>
        (Raise (AssertionError "GITHUB_OUTPUT environment variable must be set"),
         w)
    | Some output_file =>
        match open_error (files w) output_file with
        | Some e => (Raise e, w)
        | None =>
            (Ok tt,
             mkWorld (environ w)
               (<[output_file := default "" (files w !! output_file)
                    +:+ Str.concat
                          (github_output_lines install_dir version clang_path
                             sysroot_path)]> (files w))
               (trace w ++ map (EvWrite output_file)
                  (github_output_lines install_dir version clang_path
                     sysroot_path))%list)
        end
    end.
Proof.
  unfold write_github_output.
  destruct (environ w !! "GITHUB_OUTPUT") as [output_file|] eqn:Eo;
    [|now rewrite run_bind, (hasenv_unset _ _ Eo)].
  rewrite run_bind, (hasenv_set _ _ _ Eo). cbv beta iota.
  rewrite run_bind. change (assert true _ w) with (Ok tt, w). cbv beta iota.
  rewrite run_bind, (getenv_set _ _ _ Eo). cbv beta iota.
  now rewrite with_open_append_cases.
Qed.

(** [GITHUB_OUTPUT] unset: the assertion fails and nothing is written. *)
Lemma write_github_output_without_output
    install_dir version clang_path sysroot_path w :
  environ w !! "GITHUB_OUTPUT" = None ->
  write_github_output install_dir version clang_path sysroot_path w
  = (Raise (AssertionError "GITHUB_OUTPUT environment variable must be set"), w).
Proof. intros E. now rewrite write_github_output_cases, E. Qed.

(** [GITHUB_OUTPUT] set and the file opened: the four lines go to the output
    file. *)
Lemma write_github_output_run install_dir version clang_path sysroot_path w
    (output_file : string) :
  environ w !! "GITHUB_OUTPUT" = Some output_file ->
  open_error (files w) output_file = None ->
  write_github_output install_dir version clang_path sysroot_path w
  = (Ok tt,
     mkWorld (environ w)
       (<[output_file := default "" (files w !! output_file) +:+ Str.concat
            (github_output_lines install_dir version clang_path sysroot_path)]>
          (files w))
       (trace w ++ map (EvWrite output_file)
          (github_output_lines install_dir version clang_path sysroot_path))%list).
Proof. intros Eo Eopen. now rewrite write_github_output_cases, Eo, Eopen. Qed.

Lemma endswith_refl (suf : string) : Str.endswith suf suf = true.
Proof.
  destruct suf as [|c suf]; [reflexivity|].
  cbn [Str.endswith]. now rewrite String.eqb_refl.
Qed.

Lemma endswith_append (suf front back : string) :
  Str.endswith suf back = true -> Str.endswith suf (front +:+ back) = true.
Proof.
  intros E. induction front as [|c front IH]; [exact E|].
  rewrite append_cons. simpl. rewrite IH. apply orb_true_r.
Qed.

Lemma writes_app (t1 t2 : list event) :
  writes (t1 ++ t2)%list = (writes t1 ++ writes t2)%list.
Proof. apply omap_app. Qed.

Lemma writes_map_write (path : string) (chunks : list string) :
  writes (map (EvWrite path) chunks) = map (pair path) chunks.
Proof. induction chunks as [|c cs IH]; [reflexivity|]. simpl. now rewrite <- IH. Qed.

Lemma writes_cons_write (path text : string) (t : list event) :
  writes (EvWrite path text :: t) = (path, text) :: writes t.
Proof. reflexivity. Qed.

End CiExport.

Section CiExportClaims.
Context `{Platform}.
Implicit Types (install_dir version clang_path sysroot_path : string) (w : World).

(** C9. What [write_github_path] writes is, in this order and as far as it
    gets: to the path file the directory of the clang executable and nothing
    after it, no line feed; to the environment file four [key=value] texts
    that each end in a line feed.  What [write_github_output] writes is four
    texts to the output file that each end in a line feed.  A function that
    returns has written all of its texts, at the end of the files. *)
Theorem ci_export_line_endings install_dir version clang_path sysroot_path w :
  let path_run :=
    write_github_path install_dir version clang_path sysroot_path w in
  let output_run :=
    write_github_output install_dir version clang_path sysroot_path w in
  let env_texts :=
    [ "WASI_SDK_PATH=" +:+ install_dir +:+ String "010" "";
      "WASI_SDK_VERSION=" +:+ version +:+ String "010" "";
      "CC=" +:+ clang_path +:+ " --sysroot=" +:+ sysroot_path +:+ String "010" "";
      "CXX=" +:+ clang_path +:+ "++ --sysroot=" +:+ sysroot_path
        +:+ String "010" "" ] in
  let output_texts :=
    [ "wasi-sdk-path=" +:+ install_dir +:+ String "010" "";
      "wasi-sdk-version=" +:+ version +:+ String "010" "";
      "clang-path=" +:+ clang_path +:+ String "010" "";
      "sysroot-path=" +:+ sysroot_path +:+ String "010" "" ] in
  (exists added : list (string * string),
      writes (trace (snd path_run)) = (writes (trace w) ++ added)%list
      /\ (added = []
          \/ exists path_file : string,
               environ w !! "GITHUB_PATH" = Some path_file
               /\ (added = [(path_file, dirname clang_path)]
                   \/ exists env_file : string,
                        environ w !! "GITHUB_ENV" = Some env_file
                        /\ added = (path_file, dirname clang_path)
                                   :: map (pair env_file) env_texts))
      /\ Forall (fun write => Str.endswith (String "010" "") (snd write) = true)
           (List.tl added))
  /\ (fst path_run = Ok tt ->
      exists path_file env_file : string,
        environ w !! "GITHUB_PATH" = Some path_file
        /\ environ w !! "GITHUB_ENV" = Some env_file
        /\ writes (trace (snd path_run))
           = (writes (trace w)
              ++ (path_file, dirname clang_path)
                 :: map (pair env_file) env_texts)%list
        /\ files (snd path_run)
           = (let fs := <[path_file := default "" (files w !! path_file)
                                       +:+ dirname clang_path]> (files w) in
              <[env_file := default "" (fs !! env_file)
                            +:+ Str.concat env_texts]> fs))
  /\ (exists added : list (string * string),
        writes (trace (snd output_run)) = (writes (trace w) ++ added)%list
        /\ (added = []
            \/ exists output_file : string,
                 environ w !! "GITHUB_OUTPUT" = Some output_file
                 /\ added = map (pair output_file) output_texts)
        /\ Forall (fun write => Str.endswith (String "010" "") (snd write) = true)
             added)
  /\ (fst output_run = Ok tt ->
      exists output_file : string,
        environ w !! "GITHUB_OUTPUT" = Some output_file
        /\ writes (trace (snd output_run))
           = (writes (trace w) ++ map (pair output_file) output_texts)%list
        /\ files (snd output_run)
           = <[output_file := default "" (files w !! output_file)
                              +:+ Str.concat output_texts]> (files w)).
Proof.
  cbv zeta.
  rewrite write_github_path_cases, write_github_output_cases.
  split; [|split; [|split]].
  - destruct (environ w !! "GITHUB_PATH") as [path_file|];
      [|exists []; cbn [snd]; rewrite app_nil_r; split; [reflexivity|]; split; [now left | constructor]].
    destruct (open_error (files w) path_file);
      [exists []; cbn [snd]; rewrite app_nil_r; split; [reflexivity|]; split; [now left | constructor]|].
    cbv zeta.
    destruct (environ w !! "GITHUB_ENV") as [env_file|].
    + destruct (open_error _ env_file).
      * exists [(path_file, dirname clang_path)]. cbn [snd trace].
        rewrite writes_app. split; [reflexivity|]. split; [|constructor].
        right. exists path_file. split; [reflexivity | now left].
      * eexists. cbn [snd trace]. rewrite writes_app, writes_cons_write,
          writes_map_write. split; [reflexivity|]. split.
        -- right. exists path_file. split; [reflexivity|]. right.
           exists env_file. split; reflexivity.
        -- unfold github_env_lines, nl. cbn [List.tl map snd].
           repeat constructor; cbn [snd]; repeat apply endswith_append; apply endswith_refl.
    + exists [(path_file, dirname clang_path)]. cbn [snd trace].
      rewrite writes_app. split; [reflexivity|]. split; [|constructor].
      right. exists path_file. split; [reflexivity | now left].
  - destruct (environ w !! "GITHUB_PATH") as [path_file|]; [|discriminate].
    destruct (open_error (files w) path_file); [discriminate|]. cbv zeta.
    destruct (environ w !! "GITHUB_ENV") as [env_file|]; [|discriminate].
    destruct (open_error _ env_file); [discriminate|].
    intros _. exists path_file, env_file. cbn [snd trace files].
    rewrite writes_app, writes_cons_write, writes_map_write.
    repeat split.
  - destruct (environ w !! "GITHUB_OUTPUT") as [output_file|];
      [|exists []; cbn [snd]; rewrite app_nil_r; split; [reflexivity|]; split; [now left | constructor]].
    destruct (open_error (files w) output_file);
      [exists []; cbn [snd]; rewrite app_nil_r; split; [reflexivity|]; split; [now left | constructor]|].
    eexists. cbn [snd trace]. rewrite writes_app, writes_map_write.
    split; [reflexivity|]. split.
    + right. exists output_file. split; reflexivity.
    + unfold github_output_lines, nl. cbn [map snd].
      repeat constructor; cbn [snd]; repeat apply endswith_append; apply endswith_refl.
  - destruct (environ w !! "GITHUB_OUTPUT") as [output_file|]; [|discriminate].
    destruct (open_error (files w) output_file); [discriminate|].
    intros _. exists output_file. cbn [snd trace files].
    rewrite writes_app, writes_map_write. repeat split.
Qed.

End CiExportClaims.

(** C2. With [GITHUB_PATH] set and [GITHUB_ENV] not, [write_github_path]
    raises [KeyError] on the lookup of [GITHUB_ENV], after it has written
    the path file: the file did not exist and now holds the directory. *)
Theorem write_github_path_writes_before_failing :
  let run :=
    write_github_path "/opt/wasi" "25.0" "/opt/wasi/bin/clang"
      "/opt/wasi/share/wasi-sysroot" Posix.path_only in
  environ Posix.path_only !! "GITHUB_ENV" = None
  /\ fst run = Raise (KeyError "GITHUB_ENV")
  /\ files Posix.path_only !! "/ci/path" = None
  /\ files (snd run) !! "/ci/path" = Some "/opt/wasi/bin"
  /\ trace (snd run) = [EvWrite "/ci/path" "/opt/wasi/bin"].
Proof.
  cbv zeta.
  rewrite (write_github_path_without_env _ _ _ _ _ "/ci/path")
    by reflexivity.
  repeat split.
Qed.

(** C9 on the process with the three variables set: the path file holds the
    directory and no line feed, the environment file four lines. *)
Lemma ci_export_line_endings_witness :
  fst (write_github_path "/opt/wasi" "25.0" "/opt/wasi/bin/clang"
         "/opt/wasi/share/wasi-sysroot" Posix.ci) = Ok tt
  /\ exists path_file env_file : string,
       environ Posix.ci !! "GITHUB_PATH" = Some path_file
       /\ environ Posix.ci !! "GITHUB_ENV" = Some env_file
       /\ writes (trace (snd (write_github_path "/opt/wasi" "25.0"
                                "/opt/wasi/bin/clang"
                                "/opt/wasi/share/wasi-sysroot" Posix.ci)))
          = [ (path_file, "/opt/wasi/bin");
              (env_file, "WASI_SDK_PATH=/opt/wasi" +:+ String "010" "");
              (env_file, "WASI_SDK_VERSION=25.0" +:+ String "010" "");
              (env_file,
               "CC=/opt/wasi/bin/clang --sysroot=/opt/wasi/share/wasi-sysroot"
               +:+ String "010" "");
              (env_file,
               "CXX=/opt/wasi/bin/clang++ --sysroot=/opt/wasi/share/wasi-sysroot"
               +:+ String "010" "") ].
Proof.
  assert (Hok : fst (write_github_path "/opt/wasi" "25.0" "/opt/wasi/bin/clang"
                       "/opt/wasi/share/wasi-sysroot" Posix.ci) = Ok tt)
    by (vm_compute; reflexivity).
  split; [exact Hok|].
  destruct (ci_export_line_endings "/opt/wasi" "25.0" "/opt/wasi/bin/clang"
              "/opt/wasi/share/wasi-sysroot" Posix.ci)
    as (_ & Hreturned & _).
  destruct (Hreturned Hok) as (path_file & env_file & Ep & Ee & Hw & _).
  exists path_file, env_file. split; [exact Ep|]. split; [exact Ee|].
  rewrite Hw. reflexivity.
Defined.

(** ** The whole run *)

Section Main.
Context `{Platform}.

(** The resolver writes nothing. *)
Lemma calculate_version_and_tag_world (version : string) (w : World) :
  snd (calculate_version_and_tag version w) = w.
Proof.
  destruct (String.eqb_spec version "latest") as [->|Hne].
  - rewrite calculate_version_and_tag_latest.
    now destruct (fst (retrieve_latest_tag w)).
  - now rewrite calculate_version_and_tag_given.
Qed.

(** The calls of [tar.extract] are no [f.write]. *)
Lemma writes_extract_events (install_dir : string) (members : list TarInfo) :
  writes (map (EvExtract install_dir) members) = [].
Proof. induction members as [|m ms IH]; [reflexivity | exact IH]. Qed.

(** [install] leaves the environment as it is and does no [f.write]. *)
Lemma install_frame (url install_dir : string) (w : World) :
  environ (snd (install url install_dir w)) = environ w
  /\ writes (trace (snd (install url install_dir w))) = writes (trace w).
Proof.
  pose proof (install_calls url install_dir w) as Hcalls.
  destruct (install_open_frame url install_dir w) as [He Ht].
  destruct (install_open url install_dir w) as [[members|e] w1];
    cbn [snd] in He, Ht.
  - destruct Hcalls as (k & Hk & Hke & _). split; [exact Hke|].
    rewrite Hk, writes_app, writes_extract_events. apply app_nil_r.
  - rewrite Hcalls. cbn [snd]. split; [exact He | now rewrite Ht].
Qed.

(** [main] is [main_install] and then the CI export. *)
Lemma main_split (version install_dir : string) (add_to_path : bool) (w : World) :
  main version install_dir add_to_path w
  = match main_install version install_dir w with
    | (Ok (install_dir, version, clang_path, sysroot_path), w1) =>
        ((if add_to_path
          then write_github_path install_dir version clang_path sysroot_path
          else mret tt);;
         has_output ← hasenv "GITHUB_OUTPUT";
         if has_output : bool
         then write_github_output install_dir version clang_path sysroot_path
         else mret tt) w1
    | (Raise e, w1) => (Raise e, w1)
    end.
Proof.
  unfold main, main_install. rewrite !run_bind.
  destruct (calculate_version_and_tag version w) as [[[v t]|e] w0];
    [|reflexivity].
  rewrite !run_bind.
  destruct (install _ _ w0) as [[[c s]|e] w1]; reflexivity.
Qed.

Lemma main_install_frame (version install_dir : string) (w : World) :
  environ (snd (main_install version install_dir w)) = environ w
  /\ writes (trace (snd (main_install version install_dir w))) = writes (trace w).
Proof.
  unfold main_install. rewrite run_bind.
  pose proof (calculate_version_and_tag_world version w) as Hw.
  destruct (calculate_version_and_tag version w) as [[[v t]|e] w0];
    simpl in Hw; subst w0; [|split; reflexivity].
  rewrite run_bind.
  pose proof (install_frame
    (calculate_artifact_url v t machine system) (abspath install_dir) w) as Hi.
  destruct (install _ _ w) as [[[c s]|e] w1]; exact Hi.
Qed.

End Main.

Section MainClaims.
Context `{Platform}.


End MainClaims.





(** C8 on an archive with the entries "top", "top/../x" and
    "top//etc/passwd": the second is handed to [tar.extract] as "../x". *)
Lemma extraction_keeps_unsafe_names_witness :
  let url := "https://example.org/sdk.tar.gz" in
  let member := mkTarInfo "top/../x" "outside" in
  Str.mem "/" "top" = false
  /\ name member = "top" +:+ "/" +:+ "../x"
  /\ exists later : list event,
       trace (snd (@install Posix.escaping url "/opt/wasi" Posix.bare))
       = EvExtract "/opt/wasi" (mkTarInfo "../x" "outside") :: later.
Proof.
  cbv zeta.
  assert (Hfirst : Str.mem "/" "top" = false) by reflexivity.
  assert (Hname : name (mkTarInfo "top/../x" "outside") = "top" +:+ "/" +:+ "../x")
    by reflexivity.
  split; [exact Hfirst|]. split; [exact Hname|].
  assert (Hr : fst (@install_open Posix.escaping
                      "https://example.org/sdk.tar.gz" "/opt/wasi" Posix.bare)
               = Ok ([mkTarInfo "top" ""]
                     ++ mkTarInfo "top/../x" "outside"
                        :: [mkTarInfo "top//etc/passwd" "root"])%list)
    by (vm_compute; reflexivity).
  pose proof (pair_of_fst _ _ Hr) as Hopen.
  set (w1 := snd (@install_open Posix.escaping "https://example.org/sdk.tar.gz"
                    "/opt/wasi" Posix.bare)) in Hopen.
  assert (Hbefore :
    @extract_members Posix.escaping "/opt/wasi" [mkTarInfo "top" ""] w1
    = (Ok tt, w1)) by reflexivity.
  destruct (@extraction_keeps_unsafe_names Posix.escaping
              "https://example.org/sdk.tar.gz" "/opt/wasi" Posix.bare w1 w1
              [mkTarInfo "top" ""] [mkTarInfo "top//etc/passwd" "root"]
              (mkTarInfo "top/../x" "outside") Hopen Hbefore) as [Hcall _].
  destruct (Hcall "top" "../x" Hfirst Hname) as [later Hlater].
  exists later. rewrite Hlater.
  assert (Hw1 : trace w1 = []) by (vm_compute; reflexivity).
  rewrite Hw1. reflexivity.
Defined.

(** ** The directory written on a POSIX host *)

Section PosixDirname.
Import Str Posix.

Lemma mem_append_r (c : ascii) (front back : string) :
  mem c back = true -> mem c (front +:+ back) = true.
Proof.
  intros E. induction front as [|a front IH]; [exact E|].
  rewrite append_cons. simpl. rewrite IH. apply orb_true_r.
Qed.

Lemma dir_head_installed (install_dir : string) :
  dir_head (install_dir +:+ "/bin/clang") = install_dir +:+ "/bin/".
Proof.
  induction install_dir as [|c d IH]; [reflexivity|].
  rewrite !append_cons.
  change (dir_head (String c (d +:+ "/bin/clang")))
    with (if mem "/" (String c (d +:+ "/bin/clang"))
          then String c (dir_head (d +:+ "/bin/clang")) else "").
  assert (mem "/" (String c (d +:+ "/bin/clang")) = true) as ->.
  { simpl. rewrite (mem_append_r "/" d "/bin/clang") by reflexivity.
    apply orb_true_r. }
  now rewrite IH.
Qed.

Lemma mem_repeat_slash (n : nat) : mem "b" (repeat_str "/" n) = false.
Proof. induction n as [|n IH]; [reflexivity | exact IH]. Qed.

(** [rstrip] stops at the last character that is not stripped. *)
Lemma rstrip_append (chars front back : string) :
  rstrip chars back <> "" ->
  rstrip chars (front +:+ back) = front +:+ rstrip chars back.
Proof.
  intros Hback. induction front as [|c front IH]; [reflexivity|].
  rewrite !append_cons. simpl. rewrite IH.
  destruct (front +:+ rstrip chars back) eqn:E; [|reflexivity].
  destruct front; [now rewrite append_nil_l in E | discriminate].
Qed.

(** The directory of the executable [install] returns is the [bin] directory
    of the install directory. *)
Lemma dirname_installed (install_dir : string) :
  posixpath_dirname (install_dir +:+ "/" +:+ "bin" +:+ "/" +:+ "clang" +:+ "")
  = install_dir +:+ "/bin".
Proof.
  change (install_dir +:+ "/" +:+ "bin" +:+ "/" +:+ "clang" +:+ "")
    with (install_dir +:+ "/bin/clang").
  unfold posixpath_dirname. rewrite dir_head_installed.
  assert (String.eqb (install_dir +:+ "/bin/") "" = false) as ->
    by (apply String.eqb_neq; destruct install_dir; discriminate).
  assert (String.eqb (install_dir +:+ "/bin/")
            (repeat_str "/" (String.length (install_dir +:+ "/bin/"))) = false)
    as ->.
  { apply String.eqb_neq. intros E. apply (f_equal (mem "b")) in E.
    rewrite mem_repeat_slash, mem_append_r in E by reflexivity. discriminate. }
  simpl. now rewrite rstrip_append by discriminate.
Qed.

(** So what [main] appends to the path file does not end in a line feed. *)
Lemma dirname_installed_no_newline (install_dir : string) :
  endswith nl
    (posixpath_dirname (install_dir +:+ "/" +:+ "bin" +:+ "/" +:+ "clang" +:+ ""))
  = false.
Proof.
  rewrite dirname_installed.
  induction install_dir as [|c d IH]; [reflexivity|].
  rewrite append_cons. cbn [endswith]. rewrite IH, orb_false_r.
  apply String.eqb_neq. intros [= _ E]. destruct d; discriminate.
Qed.

End PosixDirname.

(** ** More on the version resolver *)

Section RstripFacts.
Import Str.

Lemma rstrip_nil_all_in (chars s : string) :
  rstrip chars s = "" -> all_in chars s = true.
Proof.
  induction s as [|c s IH]; [reflexivity|].
  simpl. destruct (rstrip chars s) eqn:E; [|discriminate].
  destruct (mem c chars); [|discriminate]. intros _. now rewrite IH.
Qed.

Lemma rstrip_all_in (chars s : string) :
  all_in chars s = true -> rstrip chars s = "".
Proof.
  induction s as [|c s IH]; [reflexivity|].
  simpl. intros E. apply andb_true_iff in E as [Ec Es].
  now rewrite (IH Es), Ec.
Qed.

(** What [rstrip] drops is made of the characters to strip. *)
Lemma rstrip_split (chars s : string) :
  exists rest, s = rstrip chars s +:+ rest /\ all_in chars rest = true.
Proof.
  induction s as [|c s (rest & Hs & Hrest)].
  - exists "". split; reflexivity.
  - simpl. destruct (rstrip chars s) as [|a r] eqn:E.
    + destruct (mem c chars) eqn:Ec.
      * exists (String c s). split; [reflexivity|]. simpl. rewrite Ec.
        now apply rstrip_nil_all_in.
      * exists rest. split; [|exact Hrest]. rewrite append_cons, append_nil_l.
        rewrite append_nil_l in Hs. now subst.
    + exists rest. split; [|exact Hrest]. rewrite append_cons. now f_equal.
Qed.

(** What [rstrip] keeps does not end in a character to strip. *)
Lemma rstrip_last (chars s front : string) (c : ascii) :
  rstrip chars s = front +:+ String c "" -> mem c chars = false.
Proof.
  revert front. induction s as [|a s IH]; intros front.
  - destruct front; discriminate.
  - simpl. destruct (rstrip chars s) as [|b r] eqn:E.
    + destruct (mem a chars) eqn:Ea.
      * destruct front; discriminate.
      * destruct front as [|f front].
        -- rewrite append_nil_l. now intros [= <-].
        -- rewrite append_cons. intros [= _ H]. destruct front; discriminate.
    + destruct front as [|f front].
      * rewrite append_nil_l. discriminate.
      * rewrite append_cons. intros [= _ H]. now apply (IH front).
Qed.

(** Stripping after more characters to strip were appended. *)
Lemma rstrip_append_all_in (chars front back : string) :
  all_in chars back = true -> rstrip chars (front +:+ back) = rstrip chars front.
Proof.
  intros Hback. induction front as [|c front IH].
  - rewrite append_nil_l. now apply rstrip_all_in.
  - rewrite append_cons. simpl. now rewrite IH.
Qed.

End RstripFacts.

Section MoreVersion.
Context `{Platform}.

(** X1. For a version given by the user the tag is "wasi-sdk-" and a stem of
    the version: the version is the stem and a rest made of ['.'] and ['0']
    only, and the stem does not end in ['.'] or ['0']. *)
Theorem tag_is_prefix_and_stem (version : string) (w : World) :
  version <> "latest" ->
  exists stem rest : string,
    version = stem +:+ rest
    /\ Str.all_in ".0" rest = true
    /\ (forall (front : string) (c : ascii),
          stem = front +:+ String c "" -> Str.mem c ".0" = false)
    /\ exists v, calculate_version_and_tag version w
                 = (Ok (v, "wasi-sdk-" +:+ stem), w).
Proof.
  intros Hne. destruct (rstrip_split ".0" version) as (rest & Hv & Hrest).
  exists (Str.rstrip ".0" version), rest.
  split; [exact Hv|]. split; [exact Hrest|]. split.
  - intros front c. apply rstrip_last.
  - eexists. now rewrite calculate_version_and_tag_given.
Qed.

(** X2. For a release number that ends in neither ['.'] nor ['0'], the
    number and the number followed by ".0" both give the tag "wasi-sdk-" and
    the number, and the second is returned as the version. *)
Theorem tag_of_release_not_ending_in_zero (release : string) (w : World) :
  release <> "latest" -> Str.rstrip ".0" release = release ->
  (exists v, calculate_version_and_tag release w
             = (Ok (v, "wasi-sdk-" +:+ release), w))
  /\ calculate_version_and_tag (release +:+ ".0") w
     = (Ok (release +:+ ".0", "wasi-sdk-" +:+ release), w).
Proof.
  intros Hne Hstem. split.
  - eexists. rewrite calculate_version_and_tag_given by assumption.
    now rewrite Hstem.
  - assert (Hdot : Str.contains "." (release +:+ ".0") = true)
      by apply (contains_append "." release "0").
    rewrite calculate_version_and_tag_given
      by (intros E; rewrite E in Hdot; discriminate).
    rewrite Hdot, (rstrip_append_all_in ".0" release ".0"), Hstem by reflexivity.
    reflexivity.
Qed.

(** X4. When the metadata request fails, resolving "latest" raises what the
    request raised and [main] stops there: nothing is downloaded, extracted
    or written. *)
Theorem latest_failure_stops_the_run
    (w : World) (e : exn) (install_dir : string) (add_to_path : bool) :
  fst (retrieve_latest_tag w) = Raise e ->
  calculate_version_and_tag "latest" w = (Raise e, w)
  /\ main "latest" install_dir add_to_path w = (Raise e, w).
Proof.
  intros Hfail.
  assert (Hcalc : calculate_version_and_tag "latest" w = (Raise e, w))
    by (now rewrite calculate_version_and_tag_latest, Hfail).
  split; [exact Hcalc|].
  unfold main. rewrite run_bind, Hcalc. reflexivity.
Qed.

(** X5. When the latest tag is "wasi-sdk-" and a release number that ends in
    neither ['.'] nor ['0'] and does not hold "wasi-sdk-", resolving the
    version returned for "latest" gives the same version and the same tag. *)
Theorem latest_version_resolves_to_latest_tag (w : World) (release : string) :
  fst (retrieve_latest_tag w) = Ok ("wasi-sdk-" +:+ release) ->
  Str.contains "wasi-sdk-" release = false ->
  Str.rstrip ".0" release = release ->
  exists v,
    calculate_version_and_tag "latest" w = (Ok (v, "wasi-sdk-" +:+ release), w)
    /\ calculate_version_and_tag v w = (Ok (v, "wasi-sdk-" +:+ release), w).
Proof.
  intros Htag Hocc Hstem.
  rewrite calculate_version_and_tag_latest, Htag. cbv zeta.
  rewrite replace_leading_only by (assumption || discriminate).
  eexists. split; [reflexivity|].
  destruct (Str.contains "." release) eqn:Hdot; simpl negb; cbv iota.
  - rewrite calculate_version_and_tag_given
      by (intros E; rewrite E in Hdot; discriminate).
    now rewrite Hdot, Hstem.
  - assert (Hdot' : Str.contains "." (release +:+ ".0") = true)
      by apply (contains_append "." release "0").
    rewrite calculate_version_and_tag_given
      by (intros E; rewrite E in Hdot'; discriminate).
    rewrite Hdot', (rstrip_append_all_in ".0" release ".0"), Hstem by reflexivity.
    reflexivity.
Qed.

End MoreVersion.

(** X3. A version given by the user is resolved without the network: on any
    two hosts the result is the same, and the world is left as it is. *)
Theorem given_version_needs_no_network
    (host1 host2 : Platform) (version : string) (w : World) :
  version <> "latest" ->
  @calculate_version_and_tag host1 version w
  = @calculate_version_and_tag host2 version w
  /\ snd (@calculate_version_and_tag host1 version w) = w.
Proof.
  intros Hne. rewrite !calculate_version_and_tag_given by assumption.
  split; reflexivity.
Qed.

(** X1 at version "25.0". *)
Lemma tag_is_prefix_and_stem_witness :
  "25.0" <> "latest"
  /\ exists stem rest : string,
      "25.0" = stem +:+ rest
      /\ Str.all_in ".0" rest = true
      /\ (forall (front : string) (c : ascii),
            stem = front +:+ String c "" -> Str.mem c ".0" = false)
      /\ exists v, calculate_version_and_tag "25.0" Posix.bare
                   = (Ok (v, "wasi-sdk-" +:+ stem), Posix.bare).
Proof.
  assert (Hne : "25.0" <> "latest") by discriminate.
  split; [exact Hne|]. exact (tag_is_prefix_and_stem "25.0" Posix.bare Hne).
Defined.

(** X2 at release "25". *)
Lemma tag_of_release_not_ending_in_zero_witness :
  "25" <> "latest" /\ Str.rstrip ".0" "25" = "25"
  /\ calculate_version_and_tag "25.0" Posix.bare
     = (Ok ("25.0", "wasi-sdk-25"), Posix.bare).
Proof.
  assert (Hne : "25" <> "latest") by discriminate.
  assert (Hstem : Str.rstrip ".0" "25" = "25") by reflexivity.
  split; [exact Hne|]. split; [exact Hstem|].
  exact (proj2 (tag_of_release_not_ending_in_zero "25" Posix.bare Hne Hstem)).
Defined.

(** X3 at version "25.1", with and without a network. *)
Lemma given_version_needs_no_network_witness :
  "25.1" <> "latest"
  /\ @calculate_version_and_tag Posix.host "25.1" Posix.bare
     = @calculate_version_and_tag Posix.offline "25.1" Posix.bare.
Proof.
  assert (Hne : "25.1" <> "latest") by discriminate.
  split; [exact Hne|].
  exact (proj1 (given_version_needs_no_network Posix.host Posix.offline "25.1"
                  Posix.bare Hne)).
Defined.

(** X4 without a network. *)
Lemma latest_failure_stops_the_run_witness :
  fst (@retrieve_latest_tag Posix.offline Posix.ci) = Raise NetworkError
  /\ @main Posix.offline "latest" "/opt/wasi" true Posix.ci
     = (Raise NetworkError, Posix.ci).
Proof.
  assert (Hfail : fst (@retrieve_latest_tag Posix.offline Posix.ci)
                  = Raise NetworkError) by reflexivity.
  split; [exact Hfail|].
  exact (proj2 (@latest_failure_stops_the_run Posix.offline Posix.ci
                  NetworkError "/opt/wasi" true Hfail)).
Defined.

(** X5 at the tag "wasi-sdk-25". *)
Lemma latest_version_resolves_to_latest_tag_witness :
  fst (retrieve_latest_tag Posix.bare) = Ok ("wasi-sdk-" +:+ "25")
  /\ Str.contains "wasi-sdk-" "25" = false
  /\ Str.rstrip ".0" "25" = "25"
  /\ exists v,
      calculate_version_and_tag "latest" Posix.bare
      = (Ok (v, "wasi-sdk-" +:+ "25"), Posix.bare)
      /\ calculate_version_and_tag v Posix.bare
         = (Ok (v, "wasi-sdk-" +:+ "25"), Posix.bare).
Proof.
  assert (Htag : fst (retrieve_latest_tag Posix.bare) = Ok ("wasi-sdk-" +:+ "25"))
    by reflexivity.
  assert (Hocc : Str.contains "wasi-sdk-" "25" = false) by reflexivity.
  assert (Hstem : Str.rstrip ".0" "25" = "25") by reflexivity.
  split; [exact Htag|]. split; [exact Hocc|]. split; [exact Hstem|].
  exact (latest_version_resolves_to_latest_tag Posix.bare "25" Htag Hocc Hstem).
Defined.

(** ** More on the URL builder *)

Section MoreUrl.
Import Str.

Lemma lower_is_not_darwin (os : string) : lower os <> "Darwin".
Proof.
  intros E. pose proof (lower_idempotent os) as Hl. rewrite E in Hl. discriminate.
Qed.

(** X7. Only the exact name "Darwin" is taken for macOS: for any other OS
    name the URL is that of the lowercased name, so "darwin" and "DARWIN"
    give a "darwin" artifact and not the "macos" one. *)
Theorem artifact_url_os_case (version tag arch os : string) :
  os <> "Darwin" ->
  calculate_artifact_url version tag arch os
  = calculate_artifact_url version tag arch (lower os)
  /\ (lower os = "darwin" ->
      calculate_artifact_url version tag arch os
      = calculate_artifact_url version tag arch "darwin"
      /\ calculate_artifact_url version tag arch os
         <> calculate_artifact_url version tag arch "Darwin").
Proof.
  intros Hne.
  assert (Hurl : calculate_artifact_url version tag arch os
                 = calculate_artifact_url version tag arch (lower os)).
  { unfold calculate_artifact_url.
    rewrite (proj2 (String.eqb_neq os "Darwin") Hne).
    rewrite (proj2 (String.eqb_neq (lower os) "Darwin") (lower_is_not_darwin os)).
    now rewrite lower_idempotent. }
  split; [exact Hurl|].
  intros Hd. rewrite Hurl, Hd. split; [reflexivity|].
  unfold calculate_artifact_url. simpl String.eqb. cbv iota.
  intros E. repeat apply String.app_inj in E. discriminate E.
Qed.

End MoreUrl.

(** X7 at the OS name "DARWIN". *)
Lemma artifact_url_os_case_witness :
  "DARWIN" <> "Darwin" /\ Str.lower "DARWIN" = "darwin"
  /\ calculate_artifact_url "25.0" "wasi-sdk-25" "arm64" "DARWIN"
     = calculate_artifact_url "25.0" "wasi-sdk-25" "arm64" "darwin".
Proof.
  assert (Hne : "DARWIN" <> "Darwin") by discriminate.
  split; [exact Hne|]. split; [reflexivity|].
  exact (proj1 (proj2 (artifact_url_os_case "25.0" "wasi-sdk-25" "arm64"
                         "DARWIN" Hne) eq_refl)).
Defined.

(** ** More on the extraction *)

Section MoreSplit.
Import Str.

Lemma split_no_sep (sep : ascii) (s : string) :
  mem sep s = false -> split sep s = [s].
Proof.
  induction s as [|c s IH]; [reflexivity|].
  simpl. intros E. apply orb_false_iff in E as [Ec Es].
  rewrite Ascii.eqb_sym, Ec, (IH Es). reflexivity.
Qed.

(** Splitting what was joined gives the segments back. *)
Lemma split_join (sep : ascii) (parts : list string) :
  parts <> [] -> Forall (fun p => mem sep p = false) parts ->
  split sep (join (String sep "") parts) = parts.
Proof.
  induction parts as [|p ps IH]; [congruence|].
  intros _ Hall. inversion Hall as [|? ? Hp Hps]; subst.
  destruct ps as [|q qs].
  - simpl. now apply split_no_sep.
  - change (join (String sep "") (p :: q :: qs))
      with (p +:+ String sep "" +:+ join (String sep "") (q :: qs)).
    change (String sep "" +:+ join (String sep "") (q :: qs))
      with (String sep (join (String sep "") (q :: qs))).
    rewrite split_append by exact Hp.
    now rewrite IH by (congruence || assumption).
Qed.

End MoreSplit.

Section MoreExtraction.
Context `{Platform}.

(** X8. The name an entry is extracted under has the segments of the entry's
    name without the first, so one segment less. *)
Theorem extracted_name_has_the_other_segments
    (install_dir : string) (member : TarInfo) (w : World) :
  1 < List.length (Str.split "/" (name member)) ->
  exists renamed : TarInfo,
    trace (snd (extract_member install_dir member w))
    = (trace w ++ [EvExtract install_dir renamed])%list
    /\ data renamed = data member
    /\ Str.split "/" (name renamed) = List.tl (Str.split "/" (name member))
    /\ S (List.length (Str.split "/" (name renamed)))
       = List.length (Str.split "/" (name member)).
Proof.
  intros Hlen. rewrite extract_member_many by exact Hlen. cbv zeta.
  cbn [snd trace].
  eexists. split; [reflexivity|]. split; [reflexivity|].
  pose proof (split_segments "/" (name member)) as Hseg.
  destruct (Str.split "/" (name member)) as [|p [|q qs]]; simpl in Hlen; try lia.
  inversion Hseg; subst.
  assert (Hsplit : Str.split "/" (Str.join "/" (q :: qs)) = q :: qs)
    by (apply split_join; [discriminate | assumption]).
  cbn [name set_name List.tl]. rewrite Hsplit. split; reflexivity.
Qed.

(** X9. An archive whose entry names hold no ['/'] is passed over whole: the
    loop extracts nothing and leaves the world as it is. *)
Theorem flat_archive_extracts_nothing
    (install_dir : string) (members : list TarInfo) (w : World) :
  Forall (fun m => Str.mem "/" (name m) = false) members ->
  extract_members install_dir members w = (Ok tt, w).
Proof.
  induction 1 as [|m ms Hm _ IH]; [reflexivity|].
  change (extract_members install_dir (m :: ms) w)
    with (match extract_member install_dir m w with
          | (Ok _, w') => extract_members install_dir ms w'
          | (Raise e, w') => (Raise e, w')
          end).
  rewrite extract_member_single by (now rewrite split_no_sep).
  exact IH.
Qed.

(** X10. The first segment is dropped whatever it is: two entries whose
    names differ in the first segment only are handed to [tar.extract] under
    one and the same name. *)
Theorem entries_of_two_top_directories_collide
    (install_dir : string) (member1 member2 : TarInfo) (w1 w2 : World)
    (top1 top2 rest : string) :
  Str.mem "/" top1 = false -> Str.mem "/" top2 = false ->
  name member1 = top1 +:+ "/" +:+ rest ->
  name member2 = top2 +:+ "/" +:+ rest ->
  trace (snd (extract_member install_dir member1 w1))
  = (trace w1 ++ [EvExtract install_dir (set_name member1 rest)])%list
  /\ trace (snd (extract_member install_dir member2 w2))
     = (trace w2 ++ [EvExtract install_dir (set_name member2 rest)])%list
  /\ name (set_name member1 rest) = name (set_name member2 rest).
Proof.
  intros Ht1 Ht2 Hn1 Hn2.
  assert (Hrun : forall member w top,
    Str.mem "/" top = false -> name member = top +:+ "/" +:+ rest ->
    trace (snd (extract_member install_dir member w))
    = (trace w ++ [EvExtract install_dir (set_name member rest)])%list).
  { intros member w top Htop Hname.
    assert (Hsplit : Str.split "/" (name member) = top :: Str.split "/" rest)
      by (rewrite Hname; now apply split_append).
    pose proof (split_length "/" rest) as Hrest.
    rewrite extract_member_many by (rewrite Hsplit; simpl; lia).
    cbv zeta. cbn [snd trace]. rewrite Hsplit. simpl List.tl.
    now rewrite join_split. }
  split; [now apply (Hrun _ _ top1)|]. split; [now apply (Hrun _ _ top2)|].
  reflexivity.
Qed.

End MoreExtraction.

(** ** More on [install] *)

Section MoreInstall.
Context `{Platform}.

(** What [install] returns, when it returns. *)
Lemma install_returns (url install_dir : string) (w : World)
    (clang_path sysroot_path : string) (w' : World) :
  install url install_dir w = (Ok (clang_path, sysroot_path), w') ->
  clang_path = install_dir +:+ sep +:+ "bin" +:+ sep +:+ "clang"
               +:+ (if String.eqb sep "\" then ".exe" else "")
  /\ sysroot_path = install_dir +:+ sep +:+ "share" +:+ sep +:+ "wasi-sysroot"
  /\ isfile (files w') clang_path = true
  /\ isdir (files w') sysroot_path = true.
Proof.
  rewrite install_split.
  destruct (install_open url install_dir w) as [[members|e] w1]; [|discriminate].
  destruct (extract_members install_dir members w1) as [[[]|e] w2];
    [|discriminate].
  cbv zeta.
  match goal with
  | |- context [isfile ?fs ?p] => destruct (isfile fs p) eqn:Hfile; [|discriminate]
  end.
  match goal with
  | |- context [isdir ?fs ?p] => destruct (isdir fs p) eqn:Hdir; [|discriminate]
  end.
  intros [= <- <- <-]. auto.
Qed.

(** [install] up to the loop, by what the library calls give. *)
Lemma install_open_run (url install_dir : string) (w : World) :
  install_open url install_dir w
  = match named_temporary_file (files w) with
    | Raise e => (Raise e, w)
    | Ok file =>
        let downloaded := <[file := snd (urlretrieve url)]> (files w) in
        match fst (urlretrieve url) with
        | Raise e => (Raise e, mkWorld (environ w) downloaded (trace w))
        | Ok _ =>
            let made := snd (makedirs install_dir downloaded) in
            match fst (makedirs install_dir downloaded) with
            | Raise e => (Raise e, mkWorld (environ w) made (trace w))
            | Ok _ =>
                (tar_getmembers made file, mkWorld (environ w) made (trace w))
            end
        end
    end.
Proof.
  unfold install_open, get_files, on_files, host_call, lift, mbind, M_bind, bind.
  cbv beta iota. cbn [environ files trace].
  destruct w as [env fs t]. cbn [environ files trace].
  destruct (named_temporary_file fs) as [file|e]; [|reflexivity].
  cbv beta iota zeta. cbn [environ files trace fst snd].
  rewrite insert_insert_eq.
  destruct (urlretrieve url) as [[[]|e] received]; cbn [fst snd]; [|reflexivity].
  destruct (makedirs install_dir _) as [[[]|e] fs']; cbn [fst snd]; [|reflexivity].
  destruct (tar_getmembers fs' file); reflexivity.
Qed.

(** X11. When [install] returns, the two paths it returns are the [bin/clang]
    (with ".exe" where the separator is a backslash) and the
    [share/wasi-sysroot] of the install directory, and in the world it
    leaves the first is a file and the second a directory. *)
Theorem install_returns_verified_paths (url install_dir : string) (w : World)
    (clang_path sysroot_path : string) (w' : World) :
  install url install_dir w = (Ok (clang_path, sysroot_path), w') ->
  clang_path = install_dir +:+ sep +:+ "bin" +:+ sep +:+ "clang"
               +:+ (if String.eqb sep "\" then ".exe" else "")
  /\ sysroot_path = install_dir +:+ sep +:+ "share" +:+ sep +:+ "wasi-sysroot"
  /\ isfile (files w') clang_path = true
  /\ isdir (files w') sysroot_path = true.
Proof. apply install_returns. Qed.

(** X12. A failure before the extraction is raised as it is, and no call of
    [tar.extract] is made. When the temporary file cannot be made the world
    is as it was. When the download raises, the temporary file stays and
    holds what the download left in it, and the install directory is not
    asked for. When [os.makedirs] raises or the archive cannot be opened, the
    files are as [os.makedirs] left them, the temporary file among them. *)
Theorem install_fails_before_extraction
    (url install_dir : string) (w : World) (e : exn) :
  (named_temporary_file (files w) = Raise e ->
   install url install_dir w = (Raise e, w))
  /\ (forall file : string,
      named_temporary_file (files w) = Ok file ->
      let downloaded := <[file := snd (urlretrieve url)]> (files w) in
      let made := snd (makedirs install_dir downloaded) in
      (fst (urlretrieve url) = Raise e ->
       install url install_dir w
       = (Raise e, mkWorld (environ w) downloaded (trace w)))
      /\ (fst (urlretrieve url) = Ok tt ->
          fst (makedirs install_dir downloaded) = Raise e ->
          install url install_dir w
          = (Raise e, mkWorld (environ w) made (trace w)))
      /\ (fst (urlretrieve url) = Ok tt ->
          fst (makedirs install_dir downloaded) = Ok tt ->
          tar_getmembers made file = Raise e ->
          install url install_dir w
          = (Raise e, mkWorld (environ w) made (trace w)))).
Proof.
  split.
  - intros Hf. now rewrite install_split, install_open_run, Hf.
  - intros file Hf. cbv zeta. split; [|split].
    + intros Hd. rewrite install_split, install_open_run, Hf. cbv zeta.
      now rewrite Hd.
    + intros Hd Hm. rewrite install_split, install_open_run, Hf. cbv zeta.
      now rewrite Hd, Hm.
    + intros Hd Hm Ht. rewrite install_split, install_open_run, Hf. cbv zeta.
      now rewrite Hd, Hm, Ht.
Qed.

(** X13. When the archive was opened and every call of [tar.extract]
    returned, the executable is looked for first and the sysroot second: a
    missing executable raises "clang not found at" and its path whether or
    not the sysroot is there, a missing sysroot raises "sysroot not found
    at" and its path; in both cases what was extracted stays extracted. *)
Theorem install_checks_clang_then_sysroot
    (url install_dir : string) (w opened extracted : World)
    (members : list TarInfo) :
  install_open url install_dir w = (Ok members, opened) ->
  extract_members install_dir members opened = (Ok tt, extracted) ->
  let clang_path := install_dir +:+ sep +:+ "bin" +:+ sep +:+ "clang"
                    +:+ (if String.eqb sep "\" then ".exe" else "") in
  let sysroot_path :=
    install_dir +:+ sep +:+ "share" +:+ sep +:+ "wasi-sysroot" in
  snd (install url install_dir w) = extracted
  /\ (isfile (files extracted) clang_path = false ->
      fst (install url install_dir w)
      = Raise (AssertionError ("clang not found at " +:+ clang_path)))
  /\ (isfile (files extracted) clang_path = true ->
      isdir (files extracted) sysroot_path = false ->
      fst (install url install_dir w)
      = Raise (AssertionError ("sysroot not found at " +:+ sysroot_path))).
Proof.
  intros Ho Hx. cbv zeta. rewrite install_split, Ho, Hx. cbv zeta.
  split; [reflexivity|]. split.
  - intros Hfile. cbn [fst]. now rewrite Hfile.
  - intros Hfile Hdir. cbn [fst]. now rewrite Hfile, Hdir.
Qed.

End MoreInstall.

(** X8 on the executable of release 25. *)
Lemma extracted_name_has_the_other_segments_witness :
  let clang := mkTarInfo "wasi-sdk-25.0-x86_64-linux/bin/clang" "ELF" in
  1 < List.length (Str.split "/" (name clang))
  /\ exists renamed : TarInfo,
      trace (snd (extract_member "/opt/wasi" clang Posix.bare))
      = (trace Posix.bare ++ [EvExtract "/opt/wasi" renamed])%list
      /\ data renamed = data clang
      /\ Str.split "/" (name renamed) = List.tl (Str.split "/" (name clang))
      /\ S (List.length (Str.split "/" (name renamed)))
         = List.length (Str.split "/" (name clang)).
Proof.
  cbv zeta.
  assert (Hlen : 1 < List.length
            (Str.split "/" (name (mkTarInfo
               "wasi-sdk-25.0-x86_64-linux/bin/clang" "ELF"))))
    by (vm_compute; lia).
  split; [exact Hlen|].
  exact (extracted_name_has_the_other_segments "/opt/wasi" _ Posix.bare Hlen).
Defined.

(** X9 on an archive of two files at the top. *)
Lemma flat_archive_extracts_nothing_witness :
  let members := [mkTarInfo "clang" "ELF"; mkTarInfo "VERSION" "25"] in
  Forall (fun m => Str.mem "/" (name m) = false) members
  /\ extract_members "/opt/wasi" members Posix.bare = (Ok tt, Posix.bare).
Proof.
  cbv zeta.
  assert (Hflat : Forall (fun m => Str.mem "/" (name m) = false)
            [mkTarInfo "clang" "ELF"; mkTarInfo "VERSION" "25"])
    by (repeat constructor).
  split; [exact Hflat|].
  exact (flat_archive_extracts_nothing "/opt/wasi" _ Posix.bare Hflat).
Defined.

(** X10 on "a/bin/clang" and "b/bin/clang". *)
Lemma entries_of_two_top_directories_collide_witness :
  let first := mkTarInfo "a/bin/clang" "one" in
  let second := mkTarInfo "b/bin/clang" "two" in
  Str.mem "/" "a" = false /\ Str.mem "/" "b" = false
  /\ name first = "a" +:+ "/" +:+ "bin/clang"
  /\ name second = "b" +:+ "/" +:+ "bin/clang"
  /\ trace (snd (extract_member "/opt/wasi" first Posix.bare))
     = [EvExtract "/opt/wasi" (mkTarInfo "bin/clang" "one")]
  /\ trace (snd (extract_member "/opt/wasi" second Posix.bare))
     = [EvExtract "/opt/wasi" (mkTarInfo "bin/clang" "two")].
Proof.
  cbv zeta.
  destruct (entries_of_two_top_directories_collide "/opt/wasi"
              (mkTarInfo "a/bin/clang" "one") (mkTarInfo "b/bin/clang" "two")
              Posix.bare Posix.bare "a" "b" "bin/clang"
              eq_refl eq_refl eq_refl eq_refl) as (H1 & H2 & _).
  repeat split; first [exact H1 | exact H2 | reflexivity].
Defined.

(** X11 on the host that serves release 25. *)
Lemma install_returns_verified_paths_witness :
  exists w',
    install "https://example.org/sdk.tar.gz" "/opt/wasi" Posix.bare
    = (Ok ("/opt/wasi/bin/clang", "/opt/wasi/share/wasi-sysroot"), w')
    /\ isfile (files w') "/opt/wasi/bin/clang" = true
    /\ isdir (files w') "/opt/wasi/share/wasi-sysroot" = true.
Proof.
  eexists. split; [vm_compute; reflexivity|].
  match goal with
  | |- isfile (files ?w') _ = _ /\ _ =>
      assert (Hrun : install "https://example.org/sdk.tar.gz" "/opt/wasi"
                       Posix.bare
                     = (Ok ("/opt/wasi/bin/clang",
                            "/opt/wasi/share/wasi-sysroot"), w'))
        by (vm_compute; reflexivity)
  end.
  destruct (install_returns_verified_paths _ _ _ _ _ _ Hrun) as (_ & _ & Hf & Hd).
  split; [exact Hf | exact Hd].
Defined.

(** X12 without a network, on a connection that breaks, and on a download
    that is not an archive. *)
Lemma install_fails_before_extraction_witness :
  @named_temporary_file Posix.cut_off (files Posix.bare) = Ok "/tmp/tmpa1b2c3"
  /\ fst (@urlretrieve Posix.cut_off "u") = Raise NetworkError
  /\ @install Posix.cut_off "u" "/opt/wasi" Posix.bare
     = (Raise NetworkError, mkWorld ∅ (<["/tmp/tmpa1b2c3" := "half"]> ∅) [])
  /\ @install Posix.corrupt "u" "/opt/wasi" Posix.bare
     = (Raise ReadError, mkWorld ∅ (<["/tmp/tmpa1b2c3" := "<html>"]> ∅) []).
Proof.
  assert (Hf : @named_temporary_file Posix.cut_off (files Posix.bare)
               = Ok "/tmp/tmpa1b2c3") by reflexivity.
  assert (Hd : fst (@urlretrieve Posix.cut_off "u") = Raise NetworkError)
    by reflexivity.
  split; [exact Hf|]. split; [exact Hd|]. split.
  - destruct (proj2 (@install_fails_before_extraction Posix.cut_off "u"
                       "/opt/wasi" Posix.bare NetworkError) _ Hf)
      as (Hdown & _).
    rewrite (Hdown Hd). reflexivity.
  - assert (Hf' : @named_temporary_file Posix.corrupt (files Posix.bare)
                  = Ok "/tmp/tmpa1b2c3") by reflexivity.
    destruct (proj2 (@install_fails_before_extraction Posix.corrupt "u"
                       "/opt/wasi" Posix.bare ReadError) _ Hf')
      as (_ & _ & Hopen).
    rewrite Hopen by (vm_compute; reflexivity). vm_compute. reflexivity.
Defined.

(** X13 on archives without the compiler and without the sysroot. *)
Lemma install_checks_clang_then_sysroot_witness :
  fst (@install Posix.no_clang "u" "/opt/wasi" Posix.bare)
  = Raise (AssertionError "clang not found at /opt/wasi/bin/clang")
  /\ fst (@install Posix.no_sysroot "u" "/opt/wasi" Posix.bare)
     = Raise (AssertionError "sysroot not found at /opt/wasi/share/wasi-sysroot").
Proof.
  split.
  - assert (Ho : fst (@install_open Posix.no_clang "u" "/opt/wasi" Posix.bare)
                 = Ok [mkTarInfo "top/share/wasi-sysroot/VERSION" "25"])
      by (vm_compute; reflexivity).
    assert (Hx : fst (@extract_members Posix.no_clang "/opt/wasi"
                        [mkTarInfo "top/share/wasi-sysroot/VERSION" "25"]
                        (snd (@install_open Posix.no_clang "u" "/opt/wasi"
                                Posix.bare))) = Ok tt)
      by (vm_compute; reflexivity).
    destruct (@install_checks_clang_then_sysroot Posix.no_clang "u" "/opt/wasi"
                Posix.bare _ _ _ (pair_of_fst _ _ Ho) (pair_of_fst _ _ Hx))
      as (_ & Hclang & _).
    rewrite Hclang; [reflexivity | vm_compute; reflexivity].
  - assert (Ho : fst (@install_open Posix.no_sysroot "u" "/opt/wasi" Posix.bare)
                 = Ok [mkTarInfo "top/bin/clang" "ELF"])
      by (vm_compute; reflexivity).
    assert (Hx : fst (@extract_members Posix.no_sysroot "/opt/wasi"
                        [mkTarInfo "top/bin/clang" "ELF"]
                        (snd (@install_open Posix.no_sysroot "u" "/opt/wasi"
                                Posix.bare))) = Ok tt)
      by (vm_compute; reflexivity).
    destruct (@install_checks_clang_then_sysroot Posix.no_sysroot "u" "/opt/wasi"
                Posix.bare _ _ _ (pair_of_fst _ _ Ho) (pair_of_fst _ _ Hx))
      as (_ & _ & Hsys).
    rewrite Hsys; [reflexivity | vm_compute; reflexivity ..].
Defined.
(** ** More on the CI export *)

Section AppendsOnly.

Lemma appends_only_refl (w : World) : appends_only w w.
Proof.
  split; [reflexivity|]. split.
  - exists []. simpl. now rewrite app_nil_r.
  - intros path old Hold. exists "". now rewrite append_empty_r.
Qed.

Lemma appends_only_trans (w1 w2 w3 : World) :
  appends_only w1 w2 -> appends_only w2 w3 -> appends_only w1 w3.
Proof.
  intros (He1 & [ws1 Ht1] & Hf1) (He2 & [ws2 Ht2] & Hf2).
  split; [congruence|]. split.
  - exists (ws1 ++ ws2)%list. now rewrite Ht2, Ht1, map_app, app_assoc.
  - intros path old Hold.
    destruct (Hf1 path old Hold) as [more1 H1].
    destruct (Hf2 path _ H1) as [more2 H2].
    exists (more1 +:+ more2). now rewrite H2, append_assoc.
Qed.

(** One file opened for appending, and chunks written to it. *)
Lemma appends_only_write (w : World) (path text : string) (chunks : list string) :
  appends_only w
    (mkWorld (environ w)
       (<[path := default "" (files w !! path) +:+ text]> (files w))
       (trace w ++ map (EvWrite path) chunks)%list).
Proof.
  split; [reflexivity|]. split.
  - exists (map (pair path) chunks). cbn [trace]. now rewrite map_map.
  - intros p old Hold. cbn [files].
    destruct (decide (path = p)) as [->|Hne].
    + exists text. now rewrite lookup_insert_eq, Hold.
    + exists "". now rewrite lookup_insert_ne, append_empty_r.
Qed.

End AppendsOnly.

Section MoreCiExport.
Context `{Platform}.
Implicit Types (install_dir version clang_path sysroot_path : string) (w : World).

Lemma write_github_path_appends_only install_dir version clang_path sysroot_path w :
  appends_only w
    (snd (write_github_path install_dir version clang_path sysroot_path w)).
Proof.
  rewrite write_github_path_cases.
  destruct (environ w !! "GITHUB_PATH") as [path_file|];
    [|apply appends_only_refl].
  destruct (open_error (files w) path_file); [apply appends_only_refl|].
  cbv zeta.
  pose proof (appends_only_write w path_file (dirname clang_path)
                [dirname clang_path]) as Hfirst.
  destruct (environ w !! "GITHUB_ENV") as [env_file|]; [|exact Hfirst].
  destruct (open_error _ env_file); [exact Hfirst|]. cbn [snd].
  eapply appends_only_trans; [exact Hfirst|].
  match goal with
  | |- appends_only ?w1 _ =>
      pose proof (appends_only_write w1 env_file
        (Str.concat (github_env_lines install_dir version clang_path
                       sysroot_path))
        (github_env_lines install_dir version clang_path sysroot_path)) as Hw
  end.
  cbn [environ files trace] in Hw.
  rewrite <- List.app_assoc in Hw. exact Hw.
Qed.

Lemma write_github_output_appends_only
    install_dir version clang_path sysroot_path w :
  appends_only w
    (snd (write_github_output install_dir version clang_path sysroot_path w)).
Proof.
  rewrite write_github_output_cases.
  destruct (environ w !! "GITHUB_OUTPUT") as [output_file|];
    [|apply appends_only_refl].
  destruct (open_error (files w) output_file); [apply appends_only_refl|].
  apply appends_only_write.
Qed.

(** X14. Whatever variables are set and whether they return or raise, the two
    export functions keep the environment, add only [f.write] calls to what
    was done, and leave in every existing file what it held, possibly with
    more after it: nothing is truncated or removed. *)
Theorem ci_export_only_appends install_dir version clang_path sysroot_path w :
  appends_only w
    (snd (write_github_path install_dir version clang_path sysroot_path w))
  /\ appends_only w
       (snd (write_github_output install_dir version clang_path sysroot_path w)).
Proof.
  split; [apply write_github_path_appends_only
         | apply write_github_output_appends_only].
Qed.

(** X15. Two calls of [write_github_path] that return leave the two
    directories next to each other in the path file, with nothing between
    them. *)
Theorem path_entries_run_together
    install_dir version clang_path1 clang_path2 sysroot_path w
    (w1 w2 : World) (path_file env_file : string) :
  environ w !! "GITHUB_PATH" = Some path_file ->
  environ w !! "GITHUB_ENV" = Some env_file ->
  path_file <> env_file ->
  write_github_path install_dir version clang_path1 sysroot_path w = (Ok tt, w1) ->
  write_github_path install_dir version clang_path2 sysroot_path w1 = (Ok tt, w2) ->
  files w2 !! path_file
  = Some (default "" (files w !! path_file)
          +:+ dirname clang_path1 +:+ dirname clang_path2).
Proof.
  intros Ep Ee Hne Hrun1 Hrun2.
  assert (Hok1 : fst (write_github_path install_dir version clang_path1
                        sysroot_path w) = Ok tt) by (now rewrite Hrun1).
  assert (Hok2 : fst (write_github_path install_dir version clang_path2
                        sysroot_path w1) = Ok tt) by (now rewrite Hrun2).
  destruct (write_github_path_returned _ _ _ _ _ Hok1)
    as (p1 & e1 & Ep1 & Ee1 & Ho1 & Ho1').
  rewrite Ep in Ep1. rewrite Ee in Ee1.
  injection Ep1 as <-. injection Ee1 as <-.
  rewrite (write_github_path_run _ _ _ _ w _ _ Ep Ee Ho1 Ho1') in Hrun1.
  cbv zeta in Hrun1. injection Hrun1 as Hw1.
  assert (He1 : environ w1 = environ w) by (now rewrite <- Hw1).
  assert (Hf1 : files w1 !! path_file
                = Some (default "" (files w !! path_file)
                        +:+ dirname clang_path1)).
  { rewrite <- Hw1. cbn [files]. rewrite lookup_insert_ne by congruence.
    apply lookup_insert_eq. }
  clear Hw1.
  destruct (write_github_path_returned _ _ _ _ _ Hok2)
    as (p2 & e2 & Ep2 & Ee2 & Ho2 & Ho2').
  rewrite He1, Ep in Ep2. rewrite He1, Ee in Ee2.
  injection Ep2 as <-. injection Ee2 as <-.
  rewrite <- He1 in Ep, Ee.
  rewrite (write_github_path_run _ _ _ _ w1 path_file env_file Ep Ee Ho2 Ho2')
    in Hrun2.
  cbv zeta in Hrun2. injection Hrun2 as <-. cbn [files].
  rewrite lookup_insert_ne by congruence. rewrite lookup_insert_eq, Hf1.
  cbn [default id]. now rewrite append_assoc.
Qed.

End MoreCiExport.
(** ** More on the whole run *)

Section MoreMain.
Context `{Platform}.

Lemma writes_of_pairs (ws : list (string * string)) :
  writes (map (fun pt => EvWrite (fst pt) (snd pt)) ws) = ws.
Proof.
  induction ws as [|[p t] ws IH]; [reflexivity|]. simpl. now rewrite IH.
Qed.

Lemma extracts_of_pairs (ws : list (string * string)) :
  extracts (map (fun pt => EvWrite (fst pt) (snd pt)) ws) = [].
Proof. induction ws as [|[p t] ws IH]; [reflexivity | exact IH]. Qed.

(** What [install] adds to the trace are extractions into its directory. *)
Lemma install_trace (url install_dir : string) (w : World) :
  exists added : list event,
    trace (snd (install url install_dir w)) = (trace w ++ added)%list
    /\ Forall (fun e => exists member, e = EvExtract install_dir member) added.
Proof.
  pose proof (install_calls url install_dir w) as Hcalls.
  destruct (install_open_frame url install_dir w) as [_ Ht].
  destruct (install_open url install_dir w) as [[members|e] w1];
    cbn [snd] in Ht.
  - destruct Hcalls as (k & Hk & _). eexists. split; [exact Hk|].
    apply List.Forall_forall. intros e He.
    apply List.in_map_iff in He as (m & <- & _). eauto.
  - rewrite Hcalls. exists []. cbn [snd].
    split; [now rewrite Ht, app_nil_r | constructor].
Qed.

(** What [main] has in hand when [install] has returned. *)
Lemma main_install_returns (version install_dir : string) (w : World)
    (dir v clang_path sysroot_path : string) :
  fst (main_install version install_dir w) = Ok (dir, v, clang_path, sysroot_path) ->
  dir = abspath install_dir
  /\ (exists tag, calculate_version_and_tag version w = (Ok (v, tag), w))
  /\ clang_path = dir +:+ sep +:+ "bin" +:+ sep +:+ "clang"
                  +:+ (if String.eqb sep "\" then ".exe" else "")
  /\ sysroot_path = dir +:+ sep +:+ "share" +:+ sep +:+ "wasi-sysroot".
Proof.
  unfold main_install. rewrite run_bind.
  pose proof (calculate_version_and_tag_world version w) as Hw.
  destruct (calculate_version_and_tag version w) as [[[v0 t]|e] w0];
    simpl in Hw; subst w0; [|discriminate].
  rewrite run_bind.
  destruct (install _ _ w) as [[[c s]|e] w1] eqn:Hi; [|discriminate].
  cbn [fst]. intros [= <- <- <- <-].
  destruct (install_returns _ _ _ _ _ _ Hi) as (Hc & Hs & _).
  split; [reflexivity|]. split; [eauto|]. split; assumption.
Qed.

Lemma main_install_trace (version install_dir : string) (w : World) :
  exists added : list event,
    trace (snd (main_install version install_dir w)) = (trace w ++ added)%list
    /\ Forall (fun e => exists member, e = EvExtract (abspath install_dir) member)
         added.
Proof.
  unfold main_install. rewrite run_bind.
  pose proof (calculate_version_and_tag_world version w) as Hw.
  destruct (calculate_version_and_tag version w) as [[[v t]|e] w0];
    simpl in Hw; subst w0;
    [|exists []; split; [now rewrite app_nil_r | constructor]].
  rewrite run_bind.
  pose proof (install_trace
    (calculate_artifact_url v t machine system) (abspath install_dir) w) as Hi.
  destruct (install _ _ w) as [[[c s]|e] w1]; exact Hi.
Qed.

(** The CI export of [main], by what is set. *)
Lemma main_export_run (add_to_path : bool)
    (install_dir version clang_path sysroot_path : string) (w : World) :
  ((if add_to_path
    then write_github_path install_dir version clang_path sysroot_path
    else mret tt);;
   has_output ← hasenv "GITHUB_OUTPUT";
   if has_output : bool
   then write_github_output install_dir version clang_path sysroot_path
   else mret tt) w
  = match (if add_to_path
           then write_github_path install_dir version clang_path sysroot_path w
           else (Ok tt, w)) with
    | (Ok _, w1) =>
        match environ w !! "GITHUB_OUTPUT" with
        | Some _ =>
            write_github_output install_dir version clang_path sysroot_path w1
        | None => (Ok tt, w1)
        end
    | (Raise e, w1) => (Raise e, w1)
    end.
Proof.
  assert (Hrest : forall w1,
    appends_only w w1 ->
    (has_output ← hasenv "GITHUB_OUTPUT";
     if has_output : bool
     then write_github_output install_dir version clang_path sysroot_path
     else mret tt) w1
    = match environ w !! "GITHUB_OUTPUT" with
      | Some _ =>
          write_github_output install_dir version clang_path sysroot_path w1
      | None => (Ok tt, w1)
      end).
  { intros w1 (He & _). rewrite run_bind.
    destruct (environ w !! "GITHUB_OUTPUT") as [out|] eqn:Eo;
      rewrite <- He in Eo.
    - now rewrite (hasenv_set _ _ _ Eo).
    - now rewrite (hasenv_unset _ _ Eo). }
  rewrite run_bind. destruct add_to_path.
  - pose proof (write_github_path_appends_only install_dir version clang_path
                  sysroot_path w) as Hgrow.
    destruct (write_github_path install_dir version clang_path sysroot_path w)
      as [[[]|e] w1]; [|reflexivity].
    now apply Hrest.
  - change (@mret M _ unit tt w) with (Ok tt, w). cbv beta iota.
    apply Hrest, appends_only_refl.
Qed.

Lemma main_export_appends_only (add_to_path : bool)
    (install_dir version clang_path sysroot_path : string) (w : World) :
  appends_only w
    (snd (((if add_to_path
            then write_github_path install_dir version clang_path sysroot_path
            else mret tt);;
           has_output ← hasenv "GITHUB_OUTPUT";
           if has_output : bool
           then write_github_output install_dir version clang_path sysroot_path
           else mret tt) w)).
Proof.
  rewrite main_export_run. destruct add_to_path.
  - pose proof (write_github_path_appends_only install_dir version clang_path
                  sysroot_path w) as Hgrow.
    destruct (write_github_path install_dir version clang_path sysroot_path w)
      as [[[]|e] w1]; cbn [snd] in *; [|exact Hgrow].
    destruct (environ w !! "GITHUB_OUTPUT"); [|exact Hgrow].
    eapply appends_only_trans; [exact Hgrow|].
    apply write_github_output_appends_only.
  - destruct (environ w !! "GITHUB_OUTPUT"); [|apply appends_only_refl].
    apply write_github_output_appends_only.
Qed.

(** [main], by what [install] gives and what is set. *)
Lemma main_run (version install_dir : string) (add_to_path : bool) (w : World) :
  main version install_dir add_to_path w
  = match main_install version install_dir w with
    | (Ok (dir, v, clang_path, sysroot_path), w1) =>
        match (if add_to_path
               then write_github_path dir v clang_path sysroot_path w1
               else (Ok tt, w1)) with
        | (Ok _, w2) =>
            match environ w1 !! "GITHUB_OUTPUT" with
            | Some _ => write_github_output dir v clang_path sysroot_path w2
            | None => (Ok tt, w2)
            end
        | (Raise e, w2) => (Raise e, w2)
        end
    | (Raise e, w1) => (Raise e, w1)
    end.
Proof.
  rewrite main_split.
  destruct (main_install version install_dir w) as [[[[[d v] c] s]|e] w1];
    [|reflexivity].
  apply main_export_run.
Qed.

End MoreMain.

Section MoreMainClaims.
Context `{Platform}.

(** X16. Whatever the run does, every entry it extracts it extracts into the
    absolute path of the install directory. *)
Theorem main_extracts_into_install_dir
    (version install_dir : string) (add_to_path : bool) (w : World) :
  exists added : list event,
    trace (snd (main version install_dir add_to_path w)) = (trace w ++ added)%list
    /\ Forall (fun e => forall dir member,
                 e = EvExtract dir member -> dir = abspath install_dir) added.
Proof.
  rewrite main_split.
  destruct (main_install_trace version install_dir w) as (added & Ht & Hadded).
  assert (Hdir : Forall (fun e => forall dir member,
                   e = EvExtract dir member -> dir = abspath install_dir) added).
  { eapply Forall_impl; [exact Hadded|].
    intros e [m ->] dir member [= <- _]. reflexivity. }
  destruct (main_install version install_dir w) as [[[[[d v] c] s]|e] w1];
    cbn [snd] in *; [|eauto].
  destruct (main_export_appends_only add_to_path d v c s w1)
    as (_ & [ws Hws] & _).
  exists (added ++ map (fun pt => EvWrite (fst pt) (snd pt)) ws)%list. split.
  - now rewrite Hws, Ht, <- List.app_assoc.
  - apply Forall_app. split; [exact Hdir|].
    clear. induction ws as [|[p t] ws IH]; constructor; [discriminate | exact IH].
Qed.

(** X17. With [add_to_path] and no [GITHUB_PATH] the run never returns: once
    [install] has returned it raises the assertion of [write_github_path],
    and the world is as [install] left it, so the output file is not
    written even when [GITHUB_OUTPUT] is set. *)
Theorem main_with_add_to_path_needs_github_path
    (version install_dir : string) (w : World) :
  environ w !! "GITHUB_PATH" = None ->
  fst (main version install_dir true w) <> Ok tt
  /\ snd (main version install_dir true w)
     = snd (main_install version install_dir w)
  /\ writes (trace (snd (main version install_dir true w))) = writes (trace w)
  /\ (forall dir v clang_path sysroot_path : string,
      fst (main_install version install_dir w)
      = Ok (dir, v, clang_path, sysroot_path) ->
      fst (main version install_dir true w)
      = Raise (AssertionError "GITHUB_PATH environment variable must be set")).
Proof.
  intros Ep. rewrite main_run.
  destruct (main_install_frame version install_dir w) as [He Hw].
  destruct (main_install version install_dir w) as [[[[[d v] c] s]|e] w1];
    cbn [fst snd] in *.
  - rewrite write_github_path_without_path by (now rewrite He).
    cbn [fst snd]. repeat split; try assumption; discriminate.
  - repeat split; try assumption; discriminate.
Qed.

(** X18. Without [add_to_path] and without [GITHUB_OUTPUT] the run is the
    installation alone: it returns when [install] returns, raises what the
    resolver or [install] raises, and leaves the world as [install] left
    it. *)
Theorem main_without_ci_is_install
    (version install_dir : string) (w : World) :
  environ w !! "GITHUB_OUTPUT" = None ->
  main version install_dir false w
  = (match fst (main_install version install_dir w) with
     | Ok _ => Ok tt
     | Raise e => Raise e
     end, snd (main_install version install_dir w)).
Proof.
  intros Eo. rewrite main_run.
  destruct (main_install_frame version install_dir w) as [He _].
  destruct (main_install version install_dir w) as [[[[[d v] c] s]|e] w1];
    cbn [fst snd] in *; [|reflexivity].
  now rewrite He, Eo.
Qed.

(** X19. With [add_to_path] and the three variables set, a run that
    returns has written, in this order, the directory of the executable to
    the path file, the four lines to the environment file and the four lines
    to the output file. *)
Theorem main_full_export_order
    (version install_dir : string) (w w' : World)
    (path_file env_file output_file : string) :
  environ w !! "GITHUB_PATH" = Some path_file ->
  environ w !! "GITHUB_ENV" = Some env_file ->
  environ w !! "GITHUB_OUTPUT" = Some output_file ->
  main version install_dir true w = (Ok tt, w') ->
  exists dir v clang_path sysroot_path : string,
    fst (main_install version install_dir w)
    = Ok (dir, v, clang_path, sysroot_path)
    /\ writes (trace w')
       = (writes (trace w)
          ++ (path_file, dirname clang_path)
             :: map (pair env_file)
                  (github_env_lines dir v clang_path sysroot_path)
          ++ map (pair output_file)
               (github_output_lines dir v clang_path sysroot_path))%list.
Proof.
  intros Ep Ee Eo. rewrite main_run.
  destruct (main_install_frame version install_dir w) as [He Hw].
  destruct (main_install version install_dir w) as [[[[[d v] c] s]|e] w1];
    cbn [fst snd] in *; [|discriminate].
  rewrite <- He in Ep, Ee, Eo.
  rewrite write_github_path_cases, Ep.
  destruct (open_error (files w1) path_file); [discriminate|]. cbv zeta.
  rewrite Ee.
  destruct (open_error _ env_file); [discriminate|]. rewrite Eo.
  rewrite write_github_output_cases. cbn [environ files]. rewrite Eo.
  destruct (open_error _ output_file); [discriminate|].
  intros [= <-]. exists d, v, c, s. split; [reflexivity|]. cbn [trace].
  rewrite !writes_app, writes_cons_write, Hw, <- List.app_assoc.
  reflexivity.
Qed.

(** X20. With [GITHUB_OUTPUT] set and no [add_to_path], a run that returns
    has written to the output file the absolute install directory, the
    version as the resolver returned it, which has a ['.'], and the paths of
    the executable and the sysroot under that directory. *)
Theorem main_exports_resolved_values
    (version install_dir : string) (w w' : World) (output_file : string) :
  environ w !! "GITHUB_OUTPUT" = Some output_file ->
  main version install_dir false w = (Ok tt, w') ->
  exists v tag : string,
    calculate_version_and_tag version w = (Ok (v, tag), w)
    /\ Str.contains "." v = true
    /\ writes (trace w')
       = (writes (trace w)
          ++ map (pair output_file)
               (github_output_lines (abspath install_dir) v
                  (abspath install_dir +:+ sep +:+ "bin" +:+ sep +:+ "clang"
                   +:+ (if String.eqb sep "\" then ".exe" else ""))
                  (abspath install_dir +:+ sep +:+ "share" +:+ sep
                   +:+ "wasi-sysroot")))%list.
Proof.
  intros Eo. rewrite main_run.
  destruct (main_install_frame version install_dir w) as [He Hw].
  pose proof (main_install_returns version install_dir w) as Hret.
  destruct (main_install version install_dir w) as [[[[[d v] c] s]|e] w1];
    cbn [fst snd] in *; [|discriminate].
  destruct (Hret d v c s eq_refl) as (-> & [tag Hcalc] & -> & ->).
  rewrite He, Eo.
  rewrite write_github_output_cases, He, Eo.
  destruct (open_error (files w1) output_file); [discriminate|].
  intros [= <-]. exists v, tag. split; [exact Hcalc|]. split.
  - eapply returned_version_has_dot, Hcalc.
  - cbn [trace]. rewrite writes_app, Hw. reflexivity.
Qed.

(** X21. On a host whose separator is ['/'] and whose [dirname] is the POSIX
    one, a run with [add_to_path] that returns has written to the path file,
    first of all, the [bin] directory of the absolute install directory. *)
Theorem main_adds_bin_directory_to_path
    (version install_dir : string) (w : World) (path_file : string) :
  sep = "/" ->
  (forall p, dirname p = Posix.posixpath_dirname p) ->
  environ w !! "GITHUB_PATH" = Some path_file ->
  fst (main version install_dir true w) = Ok tt ->
  exists rest : list (string * string),
    writes (trace (snd (main version install_dir true w)))
    = (writes (trace w)
       ++ (path_file, abspath install_dir +:+ "/bin") :: rest)%list.
Proof.
  intros Hsep Hdirname Ep. rewrite main_run.
  destruct (main_install_frame version install_dir w) as [He Hw].
  pose proof (main_install_returns version install_dir w) as Hret.
  destruct (main_install version install_dir w) as [[[[[d v] c] s]|e] w1];
    cbn [fst snd] in *; [|discriminate].
  destruct (Hret d v c s eq_refl) as (Hd & _ & Hc & _).
  rewrite Hsep in Hc. simpl String.eqb in Hc. cbv iota in Hc.
  assert (Hbin : dirname c = abspath install_dir +:+ "/bin")
    by (rewrite Hdirname, Hc, Hd; apply dirname_installed).
  rewrite <- He in Ep.
  rewrite write_github_path_cases, Ep.
  destruct (open_error (files w1) path_file); [discriminate|]. cbv zeta.
  destruct (environ w1 !! "GITHUB_ENV") as [env_file|]; [|discriminate].
  destruct (open_error _ env_file); [discriminate|].
  intros _.
  match goal with
  | |- context [match environ w1 !! "GITHUB_OUTPUT" with
                | Some _ => ?run | None => (Ok tt, ?w2) end] =>
      assert (Hnext : appends_only w2
                (snd (match environ w1 !! "GITHUB_OUTPUT" with
                      | Some _ => run | None => (Ok tt, w2) end)))
        by (destruct (environ w1 !! "GITHUB_OUTPUT");
            [apply write_github_output_appends_only | apply appends_only_refl])
  end.
  destruct Hnext as (_ & [ws Hws] & _). rewrite Hws. cbn [trace].
  rewrite !writes_app, writes_cons_write, writes_of_pairs, Hw, Hbin.
  eexists. rewrite <- List.app_assoc. reflexivity.
Qed.

End MoreMainClaims.
(** X15 on two installations exported one after the other. *)
Lemma path_entries_run_together_witness :
  let w1 := snd (write_github_path "/opt/a" "25.0" "/opt/a/bin/clang"
                   "/opt/a/share/wasi-sysroot" Posix.ci) in
  let w2 := snd (write_github_path "/opt/a" "25.0" "/opt/b/bin/clang"
                   "/opt/a/share/wasi-sysroot" w1) in
  environ Posix.ci !! "GITHUB_PATH" = Some "/ci/path"
  /\ environ Posix.ci !! "GITHUB_ENV" = Some "/ci/env"
  /\ "/ci/path" <> "/ci/env"
  /\ write_github_path "/opt/a" "25.0" "/opt/a/bin/clang"
       "/opt/a/share/wasi-sysroot" Posix.ci = (Ok tt, w1)
  /\ write_github_path "/opt/a" "25.0" "/opt/b/bin/clang"
       "/opt/a/share/wasi-sysroot" w1 = (Ok tt, w2)
  /\ files w2 !! "/ci/path" = Some "/opt/a/bin/opt/b/bin".
Proof.
  cbv zeta.
  assert (Ep : environ Posix.ci !! "GITHUB_PATH" = Some "/ci/path") by reflexivity.
  assert (Ee : environ Posix.ci !! "GITHUB_ENV" = Some "/ci/env") by reflexivity.
  assert (Hne : "/ci/path" <> "/ci/env") by discriminate.
  assert (Hok1 : fst (write_github_path "/opt/a" "25.0" "/opt/a/bin/clang"
                        "/opt/a/share/wasi-sysroot" Posix.ci) = Ok tt)
    by (vm_compute; reflexivity).
  assert (Hok2 : fst (write_github_path "/opt/a" "25.0" "/opt/b/bin/clang"
                        "/opt/a/share/wasi-sysroot"
                        (snd (write_github_path "/opt/a" "25.0"
                                "/opt/a/bin/clang" "/opt/a/share/wasi-sysroot"
                                Posix.ci))) = Ok tt)
    by (vm_compute; reflexivity).
  split; [exact Ep|]. split; [exact Ee|]. split; [exact Hne|].
  split; [exact (pair_of_fst _ _ Hok1)|].
  split; [exact (pair_of_fst _ _ Hok2)|].
  pose proof (path_entries_run_together "/opt/a" "25.0" "/opt/a/bin/clang"
                "/opt/b/bin/clang" "/opt/a/share/wasi-sysroot" Posix.ci _ _
                "/ci/path" "/ci/env" Ep Ee Hne
                (pair_of_fst _ _ Hok1) (pair_of_fst _ _ Hok2)) as Hrun.
  rewrite Hrun. vm_compute. reflexivity.
Defined.

(** X17 on a process with [GITHUB_OUTPUT] and without [GITHUB_PATH]. *)
Lemma main_with_add_to_path_needs_github_path_witness :
  environ Posix.output_only !! "GITHUB_PATH" = None
  /\ fst (main "25" "/opt/wasi" true Posix.output_only)
     = Raise (AssertionError "GITHUB_PATH environment variable must be set")
  /\ writes (trace (snd (main "25" "/opt/wasi" true Posix.output_only))) = [].
Proof.
  assert (Ep : environ Posix.output_only !! "GITHUB_PATH" = None) by reflexivity.
  split; [exact Ep|].
  destruct (main_with_add_to_path_needs_github_path "25" "/opt/wasi"
              Posix.output_only Ep) as (_ & _ & Hw & Hraise).
  split; [|exact Hw].
  apply (Hraise "/opt/wasi" "25.0" "/opt/wasi/bin/clang"
           "/opt/wasi/share/wasi-sysroot").
  vm_compute. reflexivity.
Defined.

(** X18 on a process with no CI variable. *)
Lemma main_without_ci_is_install_witness :
  environ Posix.bare !! "GITHUB_OUTPUT" = None
  /\ main "25" "/opt/wasi" false Posix.bare
     = (Ok tt, snd (main_install "25" "/opt/wasi" Posix.bare)).
Proof.
  assert (Eo : environ Posix.bare !! "GITHUB_OUTPUT" = None) by reflexivity.
  split; [exact Eo|].
  rewrite (main_without_ci_is_install "25" "/opt/wasi" Posix.bare Eo).
  reflexivity.
Defined.

(** X19 on the process with the three variables set. *)
Lemma main_full_export_order_witness :
  environ Posix.ci !! "GITHUB_PATH" = Some "/ci/path"
  /\ environ Posix.ci !! "GITHUB_ENV" = Some "/ci/env"
  /\ environ Posix.ci !! "GITHUB_OUTPUT" = Some "/ci/output"
  /\ fst (main "25" "/opt/wasi" true Posix.ci) = Ok tt
  /\ map fst (writes (trace (snd (main "25" "/opt/wasi" true Posix.ci))))
     = ["/ci/path"; "/ci/env"; "/ci/env"; "/ci/env"; "/ci/env";
        "/ci/output"; "/ci/output"; "/ci/output"; "/ci/output"].
Proof.
  assert (Ep : environ Posix.ci !! "GITHUB_PATH" = Some "/ci/path") by reflexivity.
  assert (Ee : environ Posix.ci !! "GITHUB_ENV" = Some "/ci/env") by reflexivity.
  assert (Eo : environ Posix.ci !! "GITHUB_OUTPUT" = Some "/ci/output")
    by reflexivity.
  assert (Hok : fst (main "25" "/opt/wasi" true Posix.ci) = Ok tt)
    by (vm_compute; reflexivity).
  split; [exact Ep|]. split; [exact Ee|]. split; [exact Eo|].
  split; [exact Hok|].
  destruct (main_full_export_order "25" "/opt/wasi" Posix.ci _ "/ci/path"
              "/ci/env" "/ci/output" Ep Ee Eo (pair_of_fst _ _ Hok))
    as (d & v & c & s & _ & Hw).
  rewrite Hw. cbn [trace Posix.ci writes omap]. unfold github_env_lines,
    github_output_lines. reflexivity.
Defined.

(** X20 on the process with the three variables set. *)
Lemma main_exports_resolved_values_witness :
  environ Posix.ci !! "GITHUB_OUTPUT" = Some "/ci/output"
  /\ main "25" "/opt/wasi" false Posix.ci
     = (Ok tt, snd (main "25" "/opt/wasi" false Posix.ci))
  /\ exists v tag : string,
      calculate_version_and_tag "25" Posix.ci = (Ok (v, tag), Posix.ci)
      /\ Str.contains "." v = true.
Proof.
  assert (Eo : environ Posix.ci !! "GITHUB_OUTPUT" = Some "/ci/output")
    by reflexivity.
  assert (Hrun : main "25" "/opt/wasi" false Posix.ci
                 = (Ok tt, snd (main "25" "/opt/wasi" false Posix.ci)))
    by (vm_compute; reflexivity).
  split; [exact Eo|]. split; [exact Hrun|].
  destruct (main_exports_resolved_values "25" "/opt/wasi" Posix.ci _
              "/ci/output" Eo Hrun) as (v & tag & Hcalc & Hdot & _).
  exists v, tag. split; assumption.
Defined.

(** X21 on the process with the three variables set. *)
Lemma main_adds_bin_directory_to_path_witness :
  @sep Posix.host = "/"
  /\ (forall p, @dirname Posix.host p = Posix.posixpath_dirname p)
  /\ environ Posix.ci !! "GITHUB_PATH" = Some "/ci/path"
  /\ fst (main "25" "opt/wasi" true Posix.ci) = Ok tt
  /\ exists rest : list (string * string),
      writes (trace (snd (main "25" "opt/wasi" true Posix.ci)))
      = (writes (trace Posix.ci) ++ ("/ci/path", "/work/opt/wasi/bin") :: rest)%list.
Proof.
  assert (Hsep : @sep Posix.host = "/") by reflexivity.
  assert (Hdirname : forall p, @dirname Posix.host p = Posix.posixpath_dirname p)
    by reflexivity.
  assert (Ep : environ Posix.ci !! "GITHUB_PATH" = Some "/ci/path") by reflexivity.
  assert (Hok : fst (main "25" "opt/wasi" true Posix.ci) = Ok tt)
    by (vm_compute; reflexivity).
  split; [exact Hsep|]. split; [exact Hdirname|].
  split; [exact Ep|]. split; [exact Hok|].
  exact (main_adds_bin_directory_to_path "25" "opt/wasi" Posix.ci "/ci/path"
           Hsep Hdirname Ep Hok).
Defined.
